(** * ArgonOne lxpanel applet: the bus-backed state-synchronisation client

    A shallow embedding of [lxpanel/argonone.c]: the D-Bus signal handler
    that keeps the plugin's "model" fields fresh, the synchronous
    method-call wrappers, the fan-control commands built on them, the view
    refresh and the plugin constructor.

    Effects are explicit.  Every function that talks to the bus, logs or
    touches a widget runs in the monad [M], which threads the chronological
    trace of what the process has done so far; the [ArgonOnePlugin] struct,
    mutated through a pointer in C, is passed in and returned. *)

From stdpp Require Import base strings list gmap.
From Stdlib Require Import ZArith DecimalString.

Local Open Scope Z_scope.

(** ** GLib: variants, string comparison *)

Module GLib.

(** A [gdouble] is only ever copied by this program (and handed to
    [g_snprintf]); it is carried as its IEEE-754 binary64 bit pattern. *)
Definition gdouble : Type := Z.

(** A [gint32] as a mathematical integer.  The program performs no
    arithmetic on one, only comparisons with constants, so nothing can
    wrap around. *)
Definition gint32 : Type := Z.

(** The part of the [GVariant] type system the bus contract uses. *)
#[warnings="-register-all"] Inductive GVariant : Type :=
| VBoolean (b : bool)
| VInt32 (i : gint32)
| VDouble (d : gdouble)
| VString (s : string)
| VVariant (v : GVariant)
| VTuple (items : list GVariant).

Definition g_variant_new_boolean (b : bool) : GVariant := VBoolean b.
Definition g_variant_new_int32 (i : gint32) : GVariant := VInt32 i.

(** [g_variant_is_of_type (v, G_VARIANT_TYPE_TUPLE)] *)
Definition g_variant_is_tuple (v : GVariant) : bool :=
  match v with VTuple _ => true | _ => false end.

(** [g_variant_new_tuple (t, 1)] *)
Definition g_variant_new_tuple1 (v : GVariant) : GVariant := VTuple [v].

(** [g_variant_get (v, fmt, ...)] for each format string the program uses.
    [None] is a value whose type does not match the format: GLib then
    returns (after [g_return_if_fail]) without storing anything. *)
Definition g_variant_get_i (v : GVariant) : option gint32 :=
  match v with VInt32 i => Some i | _ => None end.

Definition g_variant_get_b (v : GVariant) : option bool :=
  match v with VBoolean b => Some b | _ => None end.

Definition g_variant_get_d (v : GVariant) : option gdouble :=
  match v with VDouble d => Some d | _ => None end.

(** Formats ["(i)"], ["(b)"] and ["(d)"]: a tuple of exactly one item. *)
Definition g_variant_get_tuple1 {A : Type} (get : GVariant -> option A)
    (v : GVariant) : option A :=
  match v with VTuple [x] => get x | _ => None end.

(** Format ["(sv)"]. *)
Definition g_variant_get_sv (v : GVariant) : option (string * GVariant) :=
  match v with
  | VTuple [VString s; VVariant x] => Some (s, x)
  | _ => None
  end.

(** [g_variant_get (v, fmt, &x)] seen from the variable [x]: the stored
    value on a match, the previous content otherwise. *)
Definition g_variant_get_into {A : Type} (get : GVariant -> option A)
    (v : GVariant) (x : A) : A :=
  match get v with Some y => y | None => x end.

(** [g_strcmp0] on two non-NULL strings: the sign of the comparison. *)
Definition g_strcmp0 (a b : string) : Z :=
  match String.compare a b with
  | Eq => 0
  | Lt => -1
  | Gt => 1
  end.

(** C's [!e] on an [int]. *)
Definition c_not (e : Z) : bool := e =? 0.

End GLib.

Import GLib.

(** ** The trace of the process *)

(** Result of [g_dbus_proxy_call_sync]: a reply, or a [GError] with its
    message (the return value is then [NULL]). *)
Inductive CallResult : Type :=
| Reply (retval : GVariant)
| CallError (message : string).

(** Calls into GTK and lxpanel made by the view. *)
Inductive UiAction : Type :=
| SetTaskbarIcon (icon_name : string)
| LabelSetVisible (visible : bool)
| LabelSetText (speed_text : string) (temperature_text : option gdouble)
| SetTooltipText (text : string)
| SetTooltipStatus (speed_text : string) (temperature_text : option gdouble)
| ShowAll.

Inductive Event : Type :=
| EvBusCall (method_name : string) (parameters : option GVariant)
            (result : CallResult)
| EvMessage (text : string)
| EvError (text : string)
| EvUpdateView (fan_changed config_updated : bool)
| EvUi (a : UiAction).

Definition Trace : Type := list Event.

(** How a computation ends: it returns, the process is aborted
    ([g_error]), or the program has left what GLib and C define. *)
Inductive Outcome (A : Type) : Type :=
| Ret (a : A)
| Abort
| Undefined.

Arguments Ret {A} a.
Arguments Abort {A}.
Arguments Undefined {A}.

Definition M (A : Type) : Type := Trace -> Outcome A * Trace.

#[global] Instance M_ret : MRet M := fun A a tr => (Ret a, tr).

#[global] Instance M_bind : MBind M := fun A B k m tr =>
  match m tr with
  | (Ret a, tr') => k a tr'
  | (Abort, tr') => (Abort, tr')
  | (Undefined, tr') => (Undefined, tr')
  end.

Definition emit (e : Event) : M unit := fun tr => (Ret tt, tr ++ [e]).

Definition history : M Trace := fun tr => (Ret tr, tr).

Definition abort {A : Type} : M A := fun tr => (Abort, tr).

Definition undefined {A : Type} : M A := fun tr => (Undefined, tr).

(** [g_message] and [g_error].  A message of level ERROR is always fatal. *)
Definition g_message (text : string) : M unit := emit (EvMessage text).

Definition g_error {A : Type} (text : string) : M A :=
  emit (EvError text);; abort.

(** [#define DEBUG(fmt,args...) g_message("DBG: " fmt,##args)] *)
Definition DEBUG (text : string) : M unit := g_message ("DBG: " +:+ text).

(** ** libc: the one printf conversion with an integer argument *)

(** [%3d]: the decimal numeral, right-justified in a field of width 3. *)
Definition printf_3d (i : gint32) : string :=
  let digits := NilZero.string_of_int (Z.to_int i) in
  String.concat "" (replicate (3 - String.length digits)%nat " ") +:+ digits.

(** ** The plugin *)

(** Event names, as the Python daemon defines them. *)
Definition NOTIFY_VALUE_TEMPERATURE : string := "temperature".
Definition NOTIFY_VALUE_FAN_SPEED : string := "fan_speed".
Definition NOTIFY_VALUE_FAN_CONTROL_ENABLED : string := "fan_control_enabled".
Definition NOTIFY_VALUE_POWER_CONTROL_ENABLED : string := "power_control_enabled".

(** The "model" part of the plugin's global data.  The widget and proxy
    handles of the C struct are left out: there is one panel, one label,
    one icon and one proxy, and the trace records the calls made on them. *)
Record ArgonOnePlugin : Type := {
  show_label : bool;
  include_temperature : bool;
  fan_speed : gint32;
  temperature : gdouble;
  is_fan_control_enabled : bool
}.

Definition set_show_label (v : bool) (aone : ArgonOnePlugin) : ArgonOnePlugin :=
  {| show_label := v;
     include_temperature := include_temperature aone;
     fan_speed := fan_speed aone;
     temperature := temperature aone;
     is_fan_control_enabled := is_fan_control_enabled aone |}.

Definition set_include_temperature (v : bool) (aone : ArgonOnePlugin)
    : ArgonOnePlugin :=
  {| show_label := show_label aone;
     include_temperature := v;
     fan_speed := fan_speed aone;
     temperature := temperature aone;
     is_fan_control_enabled := is_fan_control_enabled aone |}.

Definition set_fan_speed (v : gint32) (aone : ArgonOnePlugin) : ArgonOnePlugin :=
  {| show_label := show_label aone;
     include_temperature := include_temperature aone;
     fan_speed := v;
     temperature := temperature aone;
     is_fan_control_enabled := is_fan_control_enabled aone |}.

Definition set_temperature (v : gdouble) (aone : ArgonOnePlugin)
    : ArgonOnePlugin :=
  {| show_label := show_label aone;
     include_temperature := include_temperature aone;
     fan_speed := fan_speed aone;
     temperature := v;
     is_fan_control_enabled := is_fan_control_enabled aone |}.

Definition set_is_fan_control_enabled (v : bool) (aone : ArgonOnePlugin)
    : ArgonOnePlugin :=
  {| show_label := show_label aone;
     include_temperature := include_temperature aone;
     fan_speed := fan_speed aone;
     temperature := temperature aone;
     is_fan_control_enabled := v |}.

(** [g_new0 (ArgonOnePlugin, 1)]: every byte zero. *)
Definition g_new0_ArgonOnePlugin : ArgonOnePlugin :=
  {| show_label := false;
     include_temperature := false;
     fan_speed := 0;
     temperature := 0;
     is_fan_control_enabled := false |}.

(** *** The view *)

Definition when (c : bool) (m : M unit) : M unit := if c then m else mret tt.

(** Update all widgets, based on current plugin properties.  The first
    event marks the call itself, with its two flags. *)
Definition argonone_update_view (aone : ArgonOnePlugin)
    (fan_changed config_updated : bool) : M unit :=
  emit (EvUpdateView fan_changed config_updated);;
  when fan_changed
    (let icon_name :=
       if negb (is_fan_control_enabled aone) then "argonone-fan-paused"
       else if fan_speed aone =? 0 then "argonone-fan"
       else if fan_speed aone <=? 50 then "argonone-fan-medium"
       else "argonone-fan-high" in
     emit (EvUi (SetTaskbarIcon icon_name)));;
  when config_updated (emit (EvUi (LabelSetVisible (show_label aone))));;
  when (config_updated || fan_changed || include_temperature aone)
    (let speed_text :=
       if fan_speed aone <? 0 then " -- "
       else printf_3d (fan_speed aone) +:+ "%" in
     let temperature_text :=
       if include_temperature aone then Some (temperature aone) else None in
     if show_label aone then
       emit (EvUi (LabelSetText speed_text temperature_text));;
       when config_updated (emit (EvUi (SetTooltipText "ArgonOne fan")))
     else
       emit (EvUi (SetTooltipStatus speed_text temperature_text))).

(** *** Plugin D-Bus connection *)

(** The ["g-signal"] handler.  [sender_name] is [None] for [NULL].  When
    the parameters of a [NotifyValue] are not of type [(sv)],
    [g_variant_get] stores nothing and [event_name] is read
    uninitialised. *)
Definition argonone_dbus_signal (sender_name : option string)
    (signal_name : string) (parameters : GVariant) (aone : ArgonOnePlugin)
    : M ArgonOnePlugin :=
  let fan_changed := false in
  match sender_name with
  | None => mret aone  (* Synthesized event from object manager *)
  | Some _ =>
      '(aone, fan_changed) ←
        (if c_not (g_strcmp0 signal_name "NotifyValue") then
           match g_variant_get_sv parameters with
           | None => undefined
           | Some (event_name, value_var) =>
               if c_not (g_strcmp0 event_name NOTIFY_VALUE_FAN_SPEED) then
                 mret (set_fan_speed
                         (g_variant_get_into g_variant_get_i value_var
                            (fan_speed aone)) aone,
                       true)
               else if c_not (g_strcmp0 event_name
                                NOTIFY_VALUE_FAN_CONTROL_ENABLED) then
                 mret (set_is_fan_control_enabled
                         (g_variant_get_into g_variant_get_b value_var
                            (is_fan_control_enabled aone)) aone,
                       true)
               else if c_not (g_strcmp0 event_name
                                NOTIFY_VALUE_TEMPERATURE) then
                 mret (set_temperature
                         (g_variant_get_into g_variant_get_d value_var
                            (temperature aone)) aone,
                       fan_changed)
               else mret (aone, fan_changed)
           end
         else mret (aone, fan_changed));
      (* Refresh UI view *)
      argonone_update_view aone fan_changed false;;
      mret aone
  end.

(** The system bus and the daemon behind it: whether the proxy can be
    created, and what a synchronous call returns given everything the
    process has done before. *)
Record SystemBus : Type := {
  proxy_new_error : option string;
  call_sync : Trace -> string -> option GVariant -> CallResult
}.

Section Bus.

Variable bus : SystemBus.

(** [g_dbus_proxy_call_sync (proxy, method_name, parameters, 0, -1, NULL, &error)] *)
Definition g_dbus_proxy_call_sync (method_name : string)
    (parameters : option GVariant) : M CallResult :=
  tr ← history;
  let result := call_sync bus tr method_name parameters in
  emit (EvBusCall method_name parameters result);;
  mret result.

(** Returns the reply, or [None] for [NULL]. *)
Definition argonone_dbus_method_call_sync (method_name : string)
    (parameters : option GVariant) : M (option GVariant) :=
  let parameters :=
    match parameters with
    | Some p =>
        if negb (g_variant_is_tuple p) then Some (g_variant_new_tuple1 p)
        else Some p
    | None => None
    end in
  result ← g_dbus_proxy_call_sync method_name parameters;
  match result with
  | CallError message =>
      DEBUG ("Failed to call " +:+ method_name +:+ " method: " +:+ message);;
      mret None
  | Reply retval => mret (Some retval)
  end.

(** [value] is the content of the variable the C code passes by address;
    the result pairs the returned [gboolean] with its content afterwards. *)
Definition argonone_dbus_query_sync {A : Type} (method_name : string)
    (return_format : GVariant -> option A) (value : A) : M (bool * A) :=
  retval ← argonone_dbus_method_call_sync method_name None;
  match retval with
  | None => mret (false, value)
  | Some retval => mret (true, g_variant_get_into return_format retval value)
  end.

(** *** Plugin popup menu *)

Definition _argonone_set_fan (aone : ArgonOnePlugin) (enabled : bool)
    (fan_speed : gint32) : M unit :=
  argonone_dbus_method_call_sync "SetFanControlEnabled"
    (Some (g_variant_new_boolean enabled));;
  if fan_speed >=? 0 then  (* -1 denotes "keep current" *)
    argonone_dbus_method_call_sync "SetFanSpeed"
      (Some (g_variant_new_int32 fan_speed));;
    mret tt
  else mret tt.

Definition argonone_resume_fan (aone : ArgonOnePlugin) : M unit :=
  _argonone_set_fan aone true (-1).

Definition argonone_pause_off_fan (aone : ArgonOnePlugin) : M unit :=
  _argonone_set_fan aone false 0.

Definition argonone_pause_max_fan (aone : ArgonOnePlugin) : M unit :=
  _argonone_set_fan aone false 100.

Definition argonone_pause_current_fan (aone : ArgonOnePlugin) : M unit :=
  _argonone_set_fan aone false (-1).

(** *** Configuration settings *)

(** [config_setting_lookup_int (settings, name, &value)] is the lookup
    [settings !! name]. *)
Definition argonone_update_from_settings (settings : gmap string Z)
    (aone : ArgonOnePlugin) : ArgonOnePlugin :=
  let aone :=
    match settings !! "ShowLabel" with
    | Some value => set_show_label (value =? 1) aone
    | None => aone
    end in
  match settings !! "IncludeTemperature" with
  | Some value => set_include_temperature (value =? 1) aone
  | None => aone
  end.

(** *** Plugin constructor *)

(** Widget allocation and packing only create handles and leave no event. *)
Definition argonone_constructor (settings : gmap string Z) : M ArgonOnePlugin :=
  let aone := g_new0_ArgonOnePlugin in
  let aone := set_show_label true aone in
  let aone := set_include_temperature false aone in
  (* Initial values for startup view, should be updated ASAP via D-Bus *)
  let aone := set_is_fan_control_enabled true aone in
  let aone := set_fan_speed (-1) aone in
  emit (EvUi (SetTooltipText "ArgonOne fan"));;
  (* Update "model" from config settings *)
  let aone := argonone_update_from_settings settings aone in
  (* Set up D-Bus connection *)
  match proxy_new_error bus with
  | Some message => g_error ("Failed to get dbus proxy: " +:+ message)
  | None => mret tt
  end;;
  (* Retrieve current fan control and speed values *)
  '(_, v) ← argonone_dbus_query_sync "GetFanSpeed"
              (g_variant_get_tuple1 g_variant_get_i) (fan_speed aone);
  let aone := set_fan_speed v aone in
  '(_, v) ← argonone_dbus_query_sync "GetFanControlEnabled"
              (g_variant_get_tuple1 g_variant_get_b)
              (is_fan_control_enabled aone);
  let aone := set_is_fan_control_enabled v aone in
  '(_, v) ← argonone_dbus_query_sync "GetTemperature"
              (g_variant_get_tuple1 g_variant_get_d) (temperature aone);
  let aone := set_temperature v aone in
  (* Show widget and return *)
  emit (EvUi ShowAll);;
  argonone_update_view aone true true;;
  mret aone.

End Bus.

(** ** Observations on a trace *)

(** Calls of [argonone_update_view], each with its [fan_changed] and
    [config_updated] flags. *)
Definition view_call (e : Event) : option (bool * bool) :=
  match e with EvUpdateView f c => Some (f, c) | _ => None end.

Definition view_calls (tr : Trace) : list (bool * bool) := omap view_call tr.

(** Icons set on the task bar. *)
Definition icon_refresh (e : Event) : option string :=
  match e with EvUi (SetTaskbarIcon n) => Some n | _ => None end.

Definition icon_refreshes (tr : Trace) : list string := omap icon_refresh tr.

(** Status texts written to the label or to the tooltip. *)
Definition status_refresh (e : Event) : option (string * option gdouble) :=
  match e with
  | EvUi (LabelSetText s t) | EvUi (SetTooltipStatus s t) => Some (s, t)
  | _ => None
  end.

Definition status_refreshes (tr : Trace) : list (string * option gdouble) :=
  omap status_refresh tr.

(** Method calls sent over the bus, each with its parameters. *)
Definition bus_call (e : Event) : option (string * option GVariant) :=
  match e with EvBusCall m p _ => Some (m, p) | _ => None end.

Definition bus_calls (tr : Trace) : list (string * option GVariant) :=
  omap bus_call tr.

Definition calls_to (method_name : string) (tr : Trace)
    : list (string * option GVariant) :=
  filter (fun c => c.1 = method_name) (bus_calls tr).

(** Failed calls and the messages logged. *)
Definition failed_call (e : Event) : option (string * string) :=
  match e with EvBusCall m _ (CallError msg) => Some (m, msg) | _ => None end.

Definition failed_calls (tr : Trace) : list (string * string) :=
  omap failed_call tr.

Definition message (e : Event) : option string :=
  match e with EvMessage text => Some text | _ => None end.

Definition messages (tr : Trace) : list string := omap message tr.

(** The line [argonone_dbus_method_call_sync] logs for a failed call. *)
Definition debug_line (c : string * string) : string :=
  "DBG: " +:+ ("Failed to call " +:+ c.1 +:+ " method: " +:+ c.2).

(** Fatal errors logged. *)
Definition fatal_error (e : Event) : option string :=
  match e with EvError text => Some text | _ => None end.

Definition fatal_errors (tr : Trace) : list string := omap fatal_error tr.

(** Failures are absorbed in a stretch of trace when each failed call is
    followed up by its debug line and by nothing else: no other message
    and no fatal error. *)
Definition failures_only_logged (evs : Trace) : Prop :=
  messages evs = debug_line <$> failed_calls evs /\ fatal_errors evs = [].

(** A system bus on which the proxy is created and the daemon answers the
    three queries and acknowledges every command, except that calls of the
    methods listed in [down] get no reply. *)
Definition daemon_bus (down : list string) (speed : gint32) (enabled : bool)
    (temp : gdouble) : SystemBus :=
  {| proxy_new_error := None;
     call_sync := fun _ method_name _ =>
       if bool_decide (method_name ∈ down) then CallError "no reply"
       else if bool_decide (method_name = "GetFanSpeed") then
         Reply (VTuple [VInt32 speed])
       else if bool_decide (method_name = "GetFanControlEnabled") then
         Reply (VTuple [VBoolean enabled])
       else if bool_decide (method_name = "GetTemperature") then
         Reply (VTuple [VDouble temp])
       else Reply (VTuple []) |}.

(** No connection to the system bus: the proxy cannot be created. *)
Definition no_bus : SystemBus :=
  {| proxy_new_error := Some "Could not connect";
     call_sync := fun _ _ _ => CallError "no connection" |}.

(** The keys the daemon's [NotifyValue] signal may carry. *)
Definition recognized_keys : list string :=
  [ NOTIFY_VALUE_TEMPERATURE; NOTIFY_VALUE_FAN_SPEED;
    NOTIFY_VALUE_FAN_CONTROL_ENABLED; NOTIFY_VALUE_POWER_CONTROL_ENABLED ].

(** The parameters of a [NotifyValue (key, value)] signal, of type [(sv)]. *)
Definition notify_value (key : string) (value : GVariant) : GVariant :=
  VTuple [VString key; VVariant value].

(** The main loop dispatching the same signal [n] times in a row. *)
Fixpoint deliver (n : nat) (sender_name : option string) (signal_name : string)
    (parameters : GVariant) (aone : ArgonOnePlugin) : M ArgonOnePlugin :=
  match n with
  | O => mret aone
  | S n =>
      aone ← argonone_dbus_signal sender_name signal_name parameters aone;
      deliver n sender_name signal_name parameters aone
  end.

(** The model after a [NotifyValue (key, value)], and the [fan_changed]
    flag the handler ends with. *)
Definition after_notify (key : string) (value : GVariant)
    (aone : ArgonOnePlugin) : ArgonOnePlugin * bool :=
  if bool_decide (key = NOTIFY_VALUE_FAN_SPEED) then
    (set_fan_speed
       (g_variant_get_into g_variant_get_i value (fan_speed aone)) aone, true)
  else if bool_decide (key = NOTIFY_VALUE_FAN_CONTROL_ENABLED) then
    (set_is_fan_control_enabled
       (g_variant_get_into g_variant_get_b value (is_fan_control_enabled aone))
       aone, true)
  else if bool_decide (key = NOTIFY_VALUE_TEMPERATURE) then
    (set_temperature
       (g_variant_get_into g_variant_get_d value (temperature aone)) aone,
     false)
  else (aone, false).

(** The model the constructor holds when it starts querying the daemon
    with an empty configuration. *)
Definition startup_model : ArgonOnePlugin :=
  {| show_label := true;
     include_temperature := false;
     fan_speed := -1;
     temperature := 0;
     is_fan_control_enabled := true |}.

(** ** The rest of the plugin: configuration and mouse *)

(** [config_group_set_int (settings, name, val)]: the int member [name] of
    the plugin's settings group is set, or created. *)
Definition config_group_set_int (settings : gmap string Z) (name : string)
    (val : Z) : gmap string Z :=
  <[name := val]> settings.


(** Called by the configuration dialog.  The settings group, mutated
    through [aone->settings] in C, is passed in and returned with the
    [gboolean] result. *)
Definition argonone_apply_configuration (settings : gmap string Z)
    (aone : ArgonOnePlugin) : M (gmap string Z * bool) :=
  let settings :=
    config_group_set_int settings "ShowLabel" (Z.b2z (show_label aone)) in
  let settings :=
    config_group_set_int settings "IncludeTemperature"
      (Z.b2z (include_temperature aone)) in
  argonone_update_view aone false true;;
  mret (settings, true).

(** A popup menu: its items in order, each with its label and the
    handler connected to its ["activate"] signal. *)
Definition GtkMenu : Type := list (string * (ArgonOnePlugin -> M unit)).

Definition argonone_build_popup_menu (bus : SystemBus) : GtkMenu :=
  [ ("Resume", argonone_resume_fan bus);
    ("Hold stopped", argonone_pause_off_fan bus);
    ("Hold maximum", argonone_pause_max_fan bus);
    ("Hold current", argonone_pause_current_fan bus) ].

(** [popup_menu] is the struct's field of that name, [None] for [NULL];
    the result pairs its content afterwards with the returned [gboolean].
    [gtk_menu_popup] shows that menu and leaves no event. *)
Definition argonone_button_press_event (bus : SystemBus)
    (aone : ArgonOnePlugin) (popup_menu : option GtkMenu) (button : Z)
    : M (option GtkMenu * bool) :=
  if button =? 1 then
    (* Left-click, toggle pause-off/resume fan control *)
    (if is_fan_control_enabled aone then _argonone_set_fan bus aone false 0
     else _argonone_set_fan bus aone true (-1));;
    mret (popup_menu, false)
  else if button =? 3 then
    (* Right-click, show popup menu *)
    let popup_menu :=
      match popup_menu with
      | None => Some (argonone_build_popup_menu bus)
      | Some menu => Some menu
      end in
    mret (popup_menu, true)
  else mret (popup_menu, false).

(** The main loop dispatching a sequence of signals, each with its sender,
    name and parameters. *)
Fixpoint dispatch (signals : list (option string * string * GVariant))
    (aone : ArgonOnePlugin) : M ArgonOnePlugin :=
  match signals with
  | [] => mret aone
  | (sender_name, signal_name, parameters) :: signals =>
      aone ← argonone_dbus_signal sender_name signal_name parameters aone;
      dispatch signals aone
  end.

(** *** More observations on a trace *)

Definition label_text (e : Event) : option (string * option gdouble) :=
  match e with EvUi (LabelSetText s t) => Some (s, t) | _ => None end.

Definition label_texts (tr : Trace) : list (string * option gdouble) :=
  omap label_text tr.

Definition tooltip_status (e : Event) : option (string * option gdouble) :=
  match e with EvUi (SetTooltipStatus s t) => Some (s, t) | _ => None end.

Definition tooltip_statuses (tr : Trace) : list (string * option gdouble) :=
  omap tooltip_status tr.



Definition label_visibility (e : Event) : option bool :=
  match e with EvUi (LabelSetVisible b) => Some b | _ => None end.

Definition label_visibilities (tr : Trace) : list bool :=
  omap label_visibility tr.

(** Calls that got a reply, each with the reply. *)
Definition reply (e : Event) : option (string * GVariant) :=
  match e with EvBusCall m _ (Reply r) => Some (m, r) | _ => None end.

Definition replies (tr : Trace) : list (string * GVariant) := omap reply tr.

Ltac run_m :=
  cbv [mbind M_bind mret M_ret emit history abort undefined when
       g_message g_error DEBUG].

(** ** Properties *)

(** *** Library facts *)

Lemma string_compare_refl (a : string) : String.compare a a = Eq.
Proof.
  pose proof (String.compare_antisym a a) as H.
  destruct (String.compare a a); simpl in H; congruence.
Qed.

Lemma c_not_g_strcmp0 (a b : string) :
  c_not (g_strcmp0 a b) = bool_decide (a = b).
Proof.
  unfold c_not, g_strcmp0.
  destruct (String.compare a b) eqn:E.
  - apply String.compare_eq_iff in E. by rewrite bool_decide_eq_true_2.
  - rewrite bool_decide_eq_false_2; [done|].
    intros ->. by rewrite string_compare_refl in E.
  - rewrite bool_decide_eq_false_2; [done|].
    intros ->. by rewrite string_compare_refl in E.
Qed.

Lemma g_variant_get_sv_notify_value (key : string) (value : GVariant) :
  g_variant_get_sv (notify_value key value) = Some (key, value).
Proof. reflexivity. Qed.

(** *** Running the monad *)

(** The view always returns, after exactly one call mark followed by
    widget calls only. *)
Lemma argonone_update_view_run (aone : ArgonOnePlugin) (fc cu : bool)
    (tr : Trace) :
  exists uis : list UiAction,
    argonone_update_view aone fc cu tr
    = (Ret tt, tr ++ EvUpdateView fc cu :: (EvUi <$> uis)).
Proof.
  unfold argonone_update_view. run_m.
  destruct fc, cu, (include_temperature aone), (show_label aone); simpl;
    rewrite <- ?app_assoc; simpl;
    match goal with
    | |- exists _, (_, _ ++ _ :: ?l) = _ =>
        let rec reify l :=
          lazymatch l with
          | [] => constr:(@nil UiAction)
          | EvUi ?a :: ?l' => let r := reify l' in constr:(a :: r)
          end in
        let u := reify l in exists u; reflexivity
    end.
Qed.

Lemma view_calls_ui (uis : list UiAction) : view_calls (EvUi <$> uis) = [].
Proof. induction uis; [done|]. by simpl. Qed.

Lemma view_calls_update_view (fc cu : bool) (uis : list UiAction) :
  view_calls (EvUpdateView fc cu :: (EvUi <$> uis)) = [(fc, cu)].
Proof.
  unfold view_calls. simpl. f_equal. apply view_calls_ui.
Qed.

(** *** The model at work *)

Example printf_3d_pads : printf_3d 7 = "  7" /\ printf_3d 100 = "100".
Proof. by vm_compute. Qed.

(** Startup with every query answered: the model holds the three replies
    and the view has been refreshed once, with both flags set. *)
Example startup_all_answered :
  let r := argonone_constructor (daemon_bus [] 42 true 512) ∅ [] in
  r.1 = Ret {| show_label := true; include_temperature := false;
               fan_speed := 42; temperature := 512;
               is_fan_control_enabled := true |}
  /\ view_calls r.2 = [(true, true)]
  /\ icon_refreshes r.2 = ["argonone-fan-medium"]
  /\ status_refreshes r.2 = [(" 42%", None)].
Proof. by vm_compute. Qed.

(** With neither flag set the view touches no icon, and rewrites the
    status text exactly when the temperature is part of it. *)
Lemma argonone_update_view_quiet (aone : ArgonOnePlugin) (tr : Trace) :
  let s := if fan_speed aone <? 0 then " -- "
           else printf_3d (fan_speed aone) +:+ "%" in
  argonone_update_view aone false false tr
  = (Ret tt,
     tr ++ EvUpdateView false false ::
       (if include_temperature aone then
          [EvUi (if show_label aone
                 then LabelSetText s (Some (temperature aone))
                 else SetTooltipStatus s (Some (temperature aone)))]
        else [])).
Proof.
  unfold argonone_update_view. run_m.
  destruct (include_temperature aone), (show_label aone); simpl;
    rewrite <- ?app_assoc; reflexivity.
Qed.

(** *** The signal handler, case by case *)

Lemma argonone_dbus_signal_notify (sender key : string) (value : GVariant)
    (aone : ArgonOnePlugin) (tr : Trace) :
  argonone_dbus_signal (Some sender) "NotifyValue" (notify_value key value)
    aone tr
  = match argonone_update_view (after_notify key value aone).1
            (after_notify key value aone).2 false tr with
    | (Ret _, tr') => (Ret (after_notify key value aone).1, tr')
    | (Abort, tr') => (Abort, tr')
    | (Undefined, tr') => (Undefined, tr')
    end.
Proof.
  unfold argonone_dbus_signal, after_notify.
  rewrite c_not_g_strcmp0, bool_decide_eq_true_2 by done.
  rewrite g_variant_get_sv_notify_value. cbv beta iota.
  rewrite !c_not_g_strcmp0.
  repeat case_bool_decide; reflexivity.
Qed.

Lemma argonone_dbus_signal_notify_run (sender key : string) (value : GVariant)
    (aone : ArgonOnePlugin) (tr : Trace) :
  exists uis : list UiAction,
    argonone_dbus_signal (Some sender) "NotifyValue" (notify_value key value)
      aone tr
    = (Ret (after_notify key value aone).1,
       tr ++ EvUpdateView (after_notify key value aone).2 false
          :: (EvUi <$> uis)).
Proof.
  rewrite argonone_dbus_signal_notify.
  destruct (argonone_update_view_run (after_notify key value aone).1
              (after_notify key value aone).2 false tr) as [uis ->].
  by exists uis.
Qed.


(** Delivering the same [NotifyValue] to the model it produced changes
    nothing more. *)
Lemma after_notify_idempotent (key : string) (value : GVariant)
    (aone : ArgonOnePlugin) :
  after_notify key value (after_notify key value aone).1
  = after_notify key value aone.
Proof.
  unfold after_notify. repeat case_bool_decide; simpl; try reflexivity;
    destruct aone, value; reflexivity.
Qed.

Ltac unfold_keys :=
  unfold NOTIFY_VALUE_TEMPERATURE, NOTIFY_VALUE_FAN_SPEED,
    NOTIFY_VALUE_FAN_CONTROL_ENABLED, NOTIFY_VALUE_POWER_CONTROL_ENABLED in *.

(** *** Claims on the signal handler *)

(** C1. For every [NotifyValue] signal with a non-null sender that carries
    one of the four recognised keys, the handler returns; the field of the
    model that corresponds to the key takes the carried value (an int32 for
    ["fan_speed"], a boolean for ["fan_control_enabled"], a double for
    ["temperature"]); and every other field keeps its value.  No field of
    the model corresponds to ["power_control_enabled"], so that key leaves
    all of them as they were. *)
Theorem notify_updates_exactly_its_field (sender key : string)
    (value : GVariant) (aone : ArgonOnePlugin) (tr : Trace) :
  key ∈ recognized_keys ->
  exists (aone' : ArgonOnePlugin) (evs : Trace),
    argonone_dbus_signal (Some sender) "NotifyValue" (notify_value key value)
      aone tr = (Ret aone', tr ++ evs)
    /\ (forall i, key = NOTIFY_VALUE_FAN_SPEED -> value = VInt32 i ->
          fan_speed aone' = i)
    /\ (forall b, key = NOTIFY_VALUE_FAN_CONTROL_ENABLED -> value = VBoolean b ->
          is_fan_control_enabled aone' = b)
    /\ (forall d, key = NOTIFY_VALUE_TEMPERATURE -> value = VDouble d ->
          temperature aone' = d)
    /\ (key <> NOTIFY_VALUE_FAN_SPEED -> fan_speed aone' = fan_speed aone)
    /\ (key <> NOTIFY_VALUE_FAN_CONTROL_ENABLED ->
          is_fan_control_enabled aone' = is_fan_control_enabled aone)
    /\ (key <> NOTIFY_VALUE_TEMPERATURE -> temperature aone' = temperature aone)
    /\ show_label aone' = show_label aone
    /\ include_temperature aone' = include_temperature aone.
Proof.
  intros _.
  destruct (argonone_dbus_signal_notify_run sender key value aone tr)
    as [uis ->].
  eexists _, _. split; [reflexivity|].
  unfold after_notify.
  repeat case_bool_decide; subst; simpl; unfold_keys;
    repeat split; intros; subst; simpl; try reflexivity; congruence.
Qed.

Lemma notify_updates_exactly_its_field_witness :
(NOTIFY_VALUE_FAN_SPEED ∈ recognized_keys)
  /\ exists (aone' : ArgonOnePlugin) (evs : Trace),
       argonone_dbus_signal (Some ":1.42") "NotifyValue"
         (notify_value NOTIFY_VALUE_FAN_SPEED (VInt32 42)) startup_model []
       = (Ret aone', [] ++ evs)
       /\ fan_speed aone' = 42
       /\ is_fan_control_enabled aone' = true
       /\ temperature aone' = 0.
Proof.
  assert (Hkey : NOTIFY_VALUE_FAN_SPEED ∈ recognized_keys)
    by (apply (bool_decide_unpack _); vm_compute; exact I).
  split; [exact Hkey|].
  destruct (notify_updates_exactly_its_field ":1.42" NOTIFY_VALUE_FAN_SPEED
              (VInt32 42) startup_model [] Hkey)
    as (aone' & evs & Hrun & Hspeed & _ & _ & _ & Hctl & Htemp & _).
  exists aone', evs. split; [exact Hrun|].
  split; [by apply (Hspeed 42)|].
  split; [by rewrite Hctl|by rewrite Htemp].
Defined.

(** C7. A [NotifyValue] signal with a non-null sender whose key is none of
    the recognised keys leaves [fan_speed], [is_fan_control_enabled] and
    [temperature] as they were. *)
Theorem notify_unrecognized_key_keeps_state (sender key : string)
    (value : GVariant) (aone : ArgonOnePlugin) (tr : Trace) :
  key ∉ recognized_keys ->
  exists (aone' : ArgonOnePlugin) (evs : Trace),
    argonone_dbus_signal (Some sender) "NotifyValue" (notify_value key value)
      aone tr = (Ret aone', tr ++ evs)
    /\ fan_speed aone' = fan_speed aone
    /\ is_fan_control_enabled aone' = is_fan_control_enabled aone
    /\ temperature aone' = temperature aone.
Proof.
  intros Hkey. unfold recognized_keys in Hkey.
  rewrite !not_elem_of_cons in Hkey.
  destruct Hkey as (Htemp & Hspeed & Hctl & _).
  destruct (argonone_dbus_signal_notify_run sender key value aone tr)
    as [uis ->].
  eexists _, _. split; [reflexivity|].
  unfold after_notify. by rewrite !bool_decide_eq_false_2.
Qed.

Lemma notify_unrecognized_key_keeps_state_witness :
("uptime" ∉ recognized_keys)
  /\ exists (aone' : ArgonOnePlugin) (evs : Trace),
       argonone_dbus_signal (Some ":1.42") "NotifyValue"
         (notify_value "uptime" (VInt32 7)) startup_model []
       = (Ret aone', [] ++ evs)
       /\ fan_speed aone' = -1
       /\ is_fan_control_enabled aone' = true
       /\ temperature aone' = 0.
Proof.
  assert (Hkey : "uptime" ∉ recognized_keys)
    by (apply (bool_decide_unpack _); vm_compute; exact I).
  split; [exact Hkey|].
  exact (notify_unrecognized_key_keeps_state ":1.42" "uptime" (VInt32 7)
           startup_model [] Hkey).
Defined.

(** C4. A signal whose sender is null is a complete no-op, whatever its
    name and parameters: the handler returns the model it was given and
    leaves the trace as it was, so no view refresh takes place. *)
Theorem null_sender_is_noop (signal_name : string) (parameters : GVariant)
    (aone : ArgonOnePlugin) (tr : Trace) :
  argonone_dbus_signal None signal_name parameters aone tr = (Ret aone, tr).
Proof. reflexivity. Qed.




(** C5. A notification for ["fan_speed"] or ["fan_control_enabled"] calls
    the view with [fan_changed] true; a notification for ["temperature"]
    calls it with [fan_changed] false, which sets no icon, and rewrites the
    status text exactly when the temperature is part of that text. *)
Theorem notify_marks_fan_changed (sender : string) (value : GVariant)
    (aone : ArgonOnePlugin) (tr : Trace) :
  (exists aone' evs,
     argonone_dbus_signal (Some sender) "NotifyValue"
       (notify_value NOTIFY_VALUE_FAN_SPEED value) aone tr
     = (Ret aone', tr ++ evs)
     /\ view_calls evs = [(true, false)])
  /\ (exists aone' evs,
        argonone_dbus_signal (Some sender) "NotifyValue"
          (notify_value NOTIFY_VALUE_FAN_CONTROL_ENABLED value) aone tr
        = (Ret aone', tr ++ evs)
        /\ view_calls evs = [(true, false)])
  /\ (exists aone' evs,
        argonone_dbus_signal (Some sender) "NotifyValue"
          (notify_value NOTIFY_VALUE_TEMPERATURE value) aone tr
        = (Ret aone', tr ++ evs)
        /\ view_calls evs = [(false, false)]
        /\ icon_refreshes evs = []
        /\ length (status_refreshes evs)
           = if include_temperature aone then 1%nat else 0%nat).
Proof.
  split; [|split].
  - destruct (argonone_dbus_signal_notify_run sender NOTIFY_VALUE_FAN_SPEED
                value aone tr) as [uis ->].
    eexists _, _. split; [reflexivity|]. apply view_calls_update_view.
  - destruct (argonone_dbus_signal_notify_run sender
                NOTIFY_VALUE_FAN_CONTROL_ENABLED value aone tr) as [uis ->].
    eexists _, _. split; [reflexivity|]. apply view_calls_update_view.
  - rewrite argonone_dbus_signal_notify.
    change (after_notify NOTIFY_VALUE_TEMPERATURE value aone)
      with (set_temperature
              (g_variant_get_into g_variant_get_d value (temperature aone))
              aone, false).
    cbn [fst snd]. rewrite argonone_update_view_quiet.
    eexists _, _. split; [reflexivity|].
    cbn [include_temperature show_label set_temperature].
    destruct (include_temperature aone), (show_label aone); by repeat split.
Qed.

(** C2, as the code has it.  Delivering the same [NotifyValue] twice
    leaves the model equal to the model after one delivery; the view is
    called once per delivery, twice in all, each time with the same flags,
    whether or not the value changed. *)
Theorem duplicate_delivery_keeps_state (sender key : string)
    (value : GVariant) (aone : ArgonOnePlugin) (tr : Trace) :
  exists (aone1 : ArgonOnePlugin) (evs1 evs2 : Trace) (fan_changed : bool),
    deliver 1 (Some sender) "NotifyValue" (notify_value key value) aone tr
    = (Ret aone1, tr ++ evs1)
    /\ deliver 2 (Some sender) "NotifyValue" (notify_value key value) aone tr
       = (Ret aone1, (tr ++ evs1) ++ evs2)
    /\ view_calls evs1 = [(fan_changed, false)]
    /\ view_calls evs2 = [(fan_changed, false)].
Proof.
  destruct (argonone_dbus_signal_notify_run sender key value aone tr)
    as [uis1 H1].
  destruct (argonone_dbus_signal_notify_run sender key value
              (after_notify key value aone).1
              (tr ++ EvUpdateView (after_notify key value aone).2 false
                  :: (EvUi <$> uis1)))
    as [uis2 H2].
  rewrite after_notify_idempotent in H2.
  eexists _, _, _, _. split; [|split; [|split]].
  - cbn [deliver]. run_m. rewrite H1. reflexivity.
  - cbn [deliver]. run_m. rewrite H1, H2. reflexivity.
  - apply view_calls_update_view.
  - apply view_calls_update_view.
Qed.

(** C2, as stated, fails: from the startup model, ["fan_speed"] = 42
    delivered twice changes the value once but calls the view twice, so the
    number of refreshes is not the number after a single delivery. *)
Lemma duplicate_delivery_refresh_count_counterexample :
  let once := deliver 1 (Some ":1.42") "NotifyValue"
                (notify_value NOTIFY_VALUE_FAN_SPEED (VInt32 42))
                startup_model [] in
  let twice := deliver 2 (Some ":1.42") "NotifyValue"
                 (notify_value NOTIFY_VALUE_FAN_SPEED (VInt32 42))
                 startup_model [] in
  twice.1 = once.1
  /\ length (view_calls once.2) = 1%nat
  /\ length (view_calls twice.2) = 2%nat
  /\ ~ (length (view_calls twice.2) = length (view_calls once.2)).
Proof. vm_compute. repeat split; discriminate. Qed.

(** *** Calls over the bus *)

(** A synchronous call always returns: with the reply, or with [NULL]
    after logging the error. *)
Lemma argonone_dbus_method_call_sync_run (bus : SystemBus)
    (method_name : string) (parameters : option GVariant) (tr : Trace) :
  let sent :=
    match parameters with
    | Some (VTuple items) => Some (VTuple items)
    | Some p => Some (VTuple [p])
    | None => None
    end in
  argonone_dbus_method_call_sync bus method_name parameters tr
  = match call_sync bus tr method_name sent with
    | Reply retval =>
        (Ret (Some retval), tr ++ [EvBusCall method_name sent (Reply retval)])
    | CallError msg =>
        (Ret None,
         tr ++ [EvBusCall method_name sent (CallError msg);
                EvMessage ("DBG: Failed to call " +:+ method_name
                           +:+ " method: " +:+ msg)])
    end.
Proof.
  unfold argonone_dbus_method_call_sync, g_dbus_proxy_call_sync. run_m.
  unfold g_variant_new_tuple1.
  destruct parameters as [[]|]; simpl;
    match goal with
    | |- context [call_sync ?b ?t ?m ?p] => destruct (call_sync b t m p)
    end; rewrite <- ?app_assoc; reflexivity.
Qed.

Lemma argonone_dbus_method_call_sync_calls (bus : SystemBus)
    (method_name : string) (p : GVariant) (tr : Trace) :
  g_variant_is_tuple p = false ->
  exists (r : option GVariant) (evs : Trace),
    argonone_dbus_method_call_sync bus method_name (Some p) tr
    = (Ret r, tr ++ evs)
    /\ bus_calls evs = [(method_name, Some (VTuple [p]))].
Proof.
  intros Hp. rewrite argonone_dbus_method_call_sync_run.
  destruct p; try discriminate; simpl;
    match goal with
    | |- context [call_sync ?b ?t ?m ?p] => destruct (call_sync b t m p)
    end; eexists _, _; (split; [reflexivity|reflexivity]).
Qed.

Lemma bus_calls_app (tr1 tr2 : Trace) :
  bus_calls (tr1 ++ tr2) = bus_calls tr1 ++ bus_calls tr2.
Proof. apply omap_app. Qed.

(** The two commands of [_argonone_set_fan], in the order sent. *)
Lemma _argonone_set_fan_run (bus : SystemBus) (aone : ArgonOnePlugin)
    (enabled : bool) (speed : gint32) (tr : Trace) :
  exists evs : Trace,
    _argonone_set_fan bus aone enabled speed tr = (Ret tt, tr ++ evs)
    /\ bus_calls evs
       = ("SetFanControlEnabled", Some (VTuple [VBoolean enabled]))
         :: (if bool_decide (0 <= speed)
             then [("SetFanSpeed", Some (VTuple [VInt32 speed]))]
             else []).
Proof.
  unfold _argonone_set_fan. run_m.
  destruct (argonone_dbus_method_call_sync_calls bus "SetFanControlEnabled"
              (g_variant_new_boolean enabled) tr eq_refl)
    as (r1 & evs1 & -> & Hcalls1).
  destruct (Z.geb_spec speed 0) as [Hge|Hlt].
  - destruct (argonone_dbus_method_call_sync_calls bus "SetFanSpeed"
                (g_variant_new_int32 speed) (tr ++ evs1) eq_refl)
      as (r2 & evs2 & -> & Hcalls2).
    exists (evs1 ++ evs2). split; [by rewrite app_assoc|].
    rewrite bus_calls_app, Hcalls1, Hcalls2.
    rewrite bool_decide_eq_true_2 by lia. reflexivity.
  - exists evs1. split; [reflexivity|].
    rewrite Hcalls1, bool_decide_eq_false_2 by lia. reflexivity.
Qed.

(** C3. [_argonone_set_fan] always sends one [SetFanControlEnabled] with
    the enabled flag first, and a [SetFanSpeed] after it only when a speed
    is given (non-negative).  With [enabled = FALSE] and the sentinel [-1]
    exactly one command goes out and no speed; with [enabled = TRUE] and
    speed 75 exactly two go out, the flag and then the speed. *)
Theorem set_fan_sends_flag_then_speed (bus : SystemBus)
    (aone : ArgonOnePlugin) (tr : Trace) :
  (forall (enabled : bool) (speed : gint32),
     exists evs : Trace,
       _argonone_set_fan bus aone enabled speed tr = (Ret tt, tr ++ evs)
       /\ bus_calls evs
          = ("SetFanControlEnabled", Some (VTuple [VBoolean enabled]))
            :: (if bool_decide (0 <= speed)
                then [("SetFanSpeed", Some (VTuple [VInt32 speed]))]
                else []))
  /\ (exists evs : Trace,
        _argonone_set_fan bus aone false (-1) tr = (Ret tt, tr ++ evs)
        /\ bus_calls evs
           = [("SetFanControlEnabled", Some (VTuple [VBoolean false]))])
  /\ (exists evs : Trace,
        _argonone_set_fan bus aone true 75 tr = (Ret tt, tr ++ evs)
        /\ bus_calls evs
           = [("SetFanControlEnabled", Some (VTuple [VBoolean true]));
              ("SetFanSpeed", Some (VTuple [VInt32 75]))]).
Proof.
  split; [|split].
  - intros enabled speed. apply _argonone_set_fan_run.
  - apply (_argonone_set_fan_run bus aone false (-1) tr).
  - apply (_argonone_set_fan_run bus aone true 75 tr).
Qed.

(** C9. [_argonone_set_fan] neither validates nor clamps the speed: every
    speed that is not negative, 100 and above included, goes out in one
    [SetFanSpeed] carrying that very value, and every negative speed, not
    only [-1], sends no [SetFanSpeed] at all. *)
Theorem set_fan_speed_not_validated (bus : SystemBus) (aone : ArgonOnePlugin)
    (enabled : bool) (speed : gint32) (tr : Trace) :
  exists evs : Trace,
    _argonone_set_fan bus aone enabled speed tr = (Ret tt, tr ++ evs)
    /\ (0 <= speed ->
        calls_to "SetFanSpeed" evs
        = [("SetFanSpeed", Some (VTuple [VInt32 speed]))])
    /\ (speed < 0 -> calls_to "SetFanSpeed" evs = []).
Proof.
  destruct (_argonone_set_fan_run bus aone enabled speed tr)
    as (evs & Hrun & Hcalls).
  exists evs. split; [exact Hrun|].
  unfold calls_to. rewrite Hcalls.
  split; intros Hspeed.
  - by rewrite bool_decide_eq_true_2.
  - rewrite bool_decide_eq_false_2 by lia. reflexivity.
Qed.

Lemma set_fan_speed_not_validated_witness :
  (exists evs : Trace,
     _argonone_set_fan (daemon_bus [] 0 true 0) startup_model false 150 []
     = (Ret tt, [] ++ evs)
     /\ calls_to "SetFanSpeed" evs
        = [("SetFanSpeed", Some (VTuple [VInt32 150]))])
  /\ (exists evs : Trace,
        _argonone_set_fan (daemon_bus [] 0 true 0) startup_model false (-7) []
        = (Ret tt, [] ++ evs)
        /\ calls_to "SetFanSpeed" evs = []).
Proof.
  split.
  - destruct (set_fan_speed_not_validated (daemon_bus [] 0 true 0)
                startup_model false 150 []) as (evs & Hrun & Hsent & _).
    exists evs. split; [exact Hrun|]. apply Hsent. lia.
  - destruct (set_fan_speed_not_validated (daemon_bus [] 0 true 0)
                startup_model false (-7) []) as (evs & Hrun & _ & Hnone).
    exists evs. split; [exact Hrun|]. apply Hnone. lia.
Defined.

(** *** The constructor *)

(** The configuration only decides the two display preferences. *)
Lemma argonone_update_from_settings_model (settings : gmap string Z)
    (aone : ArgonOnePlugin) :
  fan_speed (argonone_update_from_settings settings aone) = fan_speed aone
  /\ is_fan_control_enabled (argonone_update_from_settings settings aone)
     = is_fan_control_enabled aone
  /\ temperature (argonone_update_from_settings settings aone)
     = temperature aone.
Proof.
  unfold argonone_update_from_settings.
  by destruct (settings !! "ShowLabel"), (settings !! "IncludeTemperature").
Qed.

Lemma omap_ui {A : Type} (f : Event -> option A) (uis : list UiAction) :
  (forall a, f (EvUi a) = None) -> omap f (EvUi <$> uis) = [].
Proof.
  intros Hf. induction uis as [|a uis IH]; [done|].
  simpl. by rewrite Hf.
Qed.

Ltac no_such_failure :=
  repeat match goal with
         | H : _ ∈ [] |- _ => by apply elem_of_nil in H
         | H : _ ∈ _ :: _ |- _ =>
             apply elem_of_cons in H as [H|H]; [discriminate H|]
         end.

(** Once the proxy exists the constructor returns, whatever the three
    queries get back. *)
Lemma argonone_constructor_run (bus : SystemBus) (settings : gmap string Z)
    (tr : Trace) :
  proxy_new_error bus = None ->
  exists (aone : ArgonOnePlugin) (evs : Trace),
    argonone_constructor bus settings tr = (Ret aone, tr ++ evs)
    /\ bus_calls evs
       = [("GetFanSpeed", None); ("GetFanControlEnabled", None);
          ("GetTemperature", None)]
    /\ messages evs = debug_line <$> failed_calls evs
    /\ fatal_errors evs = []
    /\ (forall msg, ("GetFanSpeed", msg) ∈ failed_calls evs ->
          fan_speed aone = -1)
    /\ (forall msg, ("GetFanControlEnabled", msg) ∈ failed_calls evs ->
          is_fan_control_enabled aone = true)
    /\ (forall msg, ("GetTemperature", msg) ∈ failed_calls evs ->
          temperature aone = 0).
Proof.
  intros Hproxy.
  unfold argonone_constructor, argonone_dbus_query_sync. run_m.
  rewrite Hproxy.
  rewrite argonone_dbus_method_call_sync_run.
  destruct (call_sync bus _ "GetFanSpeed" None) as [r1|m1];
    rewrite argonone_dbus_method_call_sync_run;
    destruct (call_sync bus _ "GetFanControlEnabled" None) as [r2|m2];
    rewrite argonone_dbus_method_call_sync_run;
    destruct (call_sync bus _ "GetTemperature" None) as [r3|m3].
  all: match goal with
       | |- context [argonone_update_view ?a ?f ?c ?t] =>
           destruct (argonone_update_view_run a f c t) as [uis ->]
       end.
  all: rewrite <- ?app_assoc; simpl; eexists _, _; split; [reflexivity|].
  all: unfold bus_calls, messages, failed_calls, fatal_errors; simpl;
    rewrite !omap_ui by done.
  all: destruct (argonone_update_from_settings_model settings
                   (set_fan_speed (-1)
                      (set_is_fan_control_enabled true
                         (set_include_temperature false
                            (set_show_label true g_new0_ArgonOnePlugin)))))
         as (-> & -> & ->).
  all: repeat split; intros; try reflexivity; no_such_failure.
Qed.

(** C6. With the proxy created, the constructor completes whatever the
    three startup queries get back.  Each of [GetFanSpeed],
    [GetFanControlEnabled] and [GetTemperature] is called exactly once, so
    a failed query is not retried, and the field of a query that got no
    reply keeps its value from before the queries: [fan_speed] is [-1],
    [is_fan_control_enabled] is true, and [temperature] is the zero that
    [g_new0] left there. *)
Theorem startup_query_failure_keeps_default (bus : SystemBus)
    (settings : gmap string Z) (tr : Trace) :
  proxy_new_error bus = None ->
  exists (aone : ArgonOnePlugin) (evs : Trace),
    argonone_constructor bus settings tr = (Ret aone, tr ++ evs)
    /\ calls_to "GetFanSpeed" evs = [("GetFanSpeed", None)]
    /\ calls_to "GetFanControlEnabled" evs = [("GetFanControlEnabled", None)]
    /\ calls_to "GetTemperature" evs = [("GetTemperature", None)]
    /\ (forall msg, ("GetFanSpeed", msg) ∈ failed_calls evs ->
          fan_speed aone = -1)
    /\ (forall msg, ("GetFanControlEnabled", msg) ∈ failed_calls evs ->
          is_fan_control_enabled aone = true)
    /\ (forall msg, ("GetTemperature", msg) ∈ failed_calls evs ->
          temperature aone = temperature g_new0_ArgonOnePlugin).
Proof.
  intros Hproxy.
  destruct (argonone_constructor_run bus settings tr Hproxy)
    as (aone & evs & Hrun & Hcalls & _ & _ & Hspeed & Hctl & Htemp).
  exists aone, evs. split; [exact Hrun|].
  unfold calls_to. rewrite Hcalls.
  repeat split; try reflexivity; assumption.
Qed.

Lemma startup_query_failure_keeps_default_witness :
  proxy_new_error (daemon_bus ["GetFanSpeed"] 42 false 77) = None
  /\ exists (aone : ArgonOnePlugin) (evs : Trace),
       argonone_constructor (daemon_bus ["GetFanSpeed"] 42 false 77) ∅ []
       = (Ret aone, [] ++ evs)
       /\ ("GetFanSpeed", "no reply") ∈ failed_calls evs
       /\ fan_speed aone = -1.
Proof.
  split; [reflexivity|].
  destruct (startup_query_failure_keeps_default
              (daemon_bus ["GetFanSpeed"] 42 false 77) ∅ [] eq_refl)
    as (aone & evs & Hrun & _ & _ & _ & Hspeed & _).
  assert (Hfailed : ("GetFanSpeed", "no reply") ∈ failed_calls evs).
  { pose proof Hrun as Hevs. vm_compute in Hevs.
    injection Hevs as _ <-.
    apply (bool_decide_unpack _). vm_compute. exact I. }
  exists aone, evs. split; [exact Hrun|].
  split; [exact Hfailed|]. exact (Hspeed "no reply" Hfailed).
Defined.

(** *** Failure semantics *)

Lemma failures_only_logged_app (evs1 evs2 : Trace) :
  failures_only_logged evs1 -> failures_only_logged evs2 ->
  failures_only_logged (evs1 ++ evs2).
Proof.
  unfold failures_only_logged, messages, failed_calls, fatal_errors.
  intros [Hm1 He1] [Hm2 He2].
  rewrite !omap_app, fmap_app, Hm1, Hm2, He1, He2. by split.
Qed.

Lemma argonone_dbus_method_call_sync_absorbs (bus : SystemBus)
    (method_name : string) (parameters : option GVariant) (tr : Trace) :
  exists (r : option GVariant) (evs : Trace),
    argonone_dbus_method_call_sync bus method_name parameters tr
    = (Ret r, tr ++ evs)
    /\ failures_only_logged evs.
Proof.
  rewrite argonone_dbus_method_call_sync_run.
  match goal with
  | |- context [call_sync ?b ?t ?m ?p] => destruct (call_sync b t m p)
  end; eexists _, _; (split; [reflexivity|by split]).
Qed.

(** C8. The one failure that aborts is the failure to create the proxy:
    the constructor then logs a fatal error and is aborted before any call
    goes out.  With the proxy created the constructor returns a plugin
    whatever the queries get back; and [argonone_dbus_method_call_sync],
    [argonone_dbus_query_sync] and [_argonone_set_fan] always return
    normally.  In all of them a failed call leaves its debug line in the
    log and nothing else. *)
Theorem only_connection_failure_is_fatal (bus : SystemBus) :
  (forall settings tr msg,
     proxy_new_error bus = Some msg ->
     exists evs : Trace,
       argonone_constructor bus settings tr = (Abort, tr ++ evs)
       /\ fatal_errors evs = ["Failed to get dbus proxy: " +:+ msg]
       /\ bus_calls evs = [])
  /\ (forall settings tr,
        proxy_new_error bus = None ->
        exists (aone : ArgonOnePlugin) (evs : Trace),
          argonone_constructor bus settings tr = (Ret aone, tr ++ evs)
          /\ failures_only_logged evs)
  /\ (forall method_name parameters tr,
        exists (r : option GVariant) (evs : Trace),
          argonone_dbus_method_call_sync bus method_name parameters tr
          = (Ret r, tr ++ evs)
          /\ failures_only_logged evs)
  /\ (forall (A : Type) method_name (return_format : GVariant -> option A)
             (value : A) tr,
        exists (r : bool * A) (evs : Trace),
          argonone_dbus_query_sync bus method_name return_format value tr
          = (Ret r, tr ++ evs)
          /\ failures_only_logged evs)
  /\ (forall aone enabled speed tr,
        exists evs : Trace,
          _argonone_set_fan bus aone enabled speed tr = (Ret tt, tr ++ evs)
          /\ failures_only_logged evs).
Proof.
  repeat apply conj.
  - intros settings tr msg Hproxy.
    unfold argonone_constructor. run_m. rewrite Hproxy.
    rewrite <- app_assoc. eexists. split; [reflexivity|by split].
  - intros settings tr Hproxy.
    destruct (argonone_constructor_run bus settings tr Hproxy)
      as (aone & evs & Hrun & _ & Hlog & Hfatal & _).
    exists aone, evs. by repeat split.
  - apply argonone_dbus_method_call_sync_absorbs.
  - intros A method_name return_format value tr.
    unfold argonone_dbus_query_sync. run_m.
    destruct (argonone_dbus_method_call_sync_absorbs bus method_name None tr)
      as ([retval|] & evs & -> & Hlog); eexists _, _; by split.
  - intros aone enabled speed tr.
    unfold _argonone_set_fan. run_m.
    destruct (argonone_dbus_method_call_sync_absorbs bus
                "SetFanControlEnabled" (Some (g_variant_new_boolean enabled))
                tr) as (r1 & evs1 & -> & Hlog1).
    destruct (speed >=? 0).
    + destruct (argonone_dbus_method_call_sync_absorbs bus "SetFanSpeed"
                  (Some (g_variant_new_int32 speed)) (tr ++ evs1))
        as (r2 & evs2 & -> & Hlog2).
      exists (evs1 ++ evs2). split; [by rewrite app_assoc|].
      by apply failures_only_logged_app.
    + by exists evs1.
Qed.

Lemma only_connection_failure_is_fatal_witness :
  (exists evs : Trace,
     argonone_constructor no_bus ∅ [] = (Abort, [] ++ evs)
     /\ fatal_errors evs = ["Failed to get dbus proxy: Could not connect"]
     /\ bus_calls evs = [])
  /\ (exists (aone : ArgonOnePlugin) (evs : Trace),
        argonone_constructor
          (daemon_bus ["GetFanSpeed"; "GetFanControlEnabled";
                       "GetTemperature"] 0 false 0) ∅ []
        = (Ret aone, [] ++ evs)
        /\ failures_only_logged evs).
Proof.
  split.
  - exact (proj1 (only_connection_failure_is_fatal no_bus) ∅ []
             "Could not connect" eq_refl).
  - exact (proj1 (proj2 (only_connection_failure_is_fatal
                           (daemon_bus ["GetFanSpeed"; "GetFanControlEnabled";
                                        "GetTemperature"] 0 false 0)))
             ∅ [] eq_refl).
Defined.

(** ** Further properties of the code *)

(** *** The view *)

(** Everything one call of the view does, in order. *)
Lemma argonone_update_view_events (aone : ArgonOnePlugin) (fc cu : bool)
    (tr : Trace) :
  let s := if fan_speed aone <? 0 then " -- "
           else printf_3d (fan_speed aone) +:+ "%" in
  let t := if include_temperature aone then Some (temperature aone)
           else None in
  argonone_update_view aone fc cu tr
  = (Ret tt,
     tr ++ EvUpdateView fc cu
        :: (if fc then
              [EvUi (SetTaskbarIcon
                       (if negb (is_fan_control_enabled aone)
                        then "argonone-fan-paused"
                        else if fan_speed aone =? 0 then "argonone-fan"
                        else if fan_speed aone <=? 50
                             then "argonone-fan-medium"
                             else "argonone-fan-high"))]
            else [])
        ++ (if cu then [EvUi (LabelSetVisible (show_label aone))] else [])
        ++ (if cu || fc || include_temperature aone then
              if show_label aone then
                EvUi (LabelSetText s t)
                  :: (if cu then [EvUi (SetTooltipText "ArgonOne fan")]
                      else [])
              else [EvUi (SetTooltipStatus s t)]
            else [])).
Proof.
  unfold argonone_update_view. run_m.
  destruct fc, cu, (include_temperature aone), (show_label aone); simpl;
    rewrite <- ?app_assoc; reflexivity.
Qed.

(** X1. Whenever the view is told the fan changed it sets exactly one icon,
    chosen from the model: the paused icon exactly when fan control is
    off, otherwise by speed -- the idle icon at 0, the high icon above 50
    and the medium icon for everything else, the unknown speed [-1]
    included.  When the fan did not change it sets none. *)
Theorem view_icon_follows_model (aone : ArgonOnePlugin) (cu : bool)
    (tr : Trace) :
  (exists (evs : Trace) (name : string),
     argonone_update_view aone true cu tr = (Ret tt, tr ++ evs)
     /\ icon_refreshes evs = [name]
     /\ (name = "argonone-fan-paused" <-> is_fan_control_enabled aone = false)
     /\ (name = "argonone-fan"
         <-> is_fan_control_enabled aone = true /\ fan_speed aone = 0)
     /\ (name = "argonone-fan-medium"
         <-> is_fan_control_enabled aone = true
             /\ fan_speed aone <> 0 /\ fan_speed aone <= 50)
     /\ (name = "argonone-fan-high"
         <-> is_fan_control_enabled aone = true /\ 50 < fan_speed aone))
  /\ (exists evs : Trace,
        argonone_update_view aone false cu tr = (Ret tt, tr ++ evs)
        /\ icon_refreshes evs = []).
Proof.
  split.
  - rewrite argonone_update_view_events. cbv zeta.
    eexists _, _. split; [reflexivity|].
    split.
    + unfold icon_refreshes.
      destruct cu, (include_temperature aone), (show_label aone);
        reflexivity.
    + destruct (is_fan_control_enabled aone); simpl;
        [destruct (Z.eqb_spec (fan_speed aone) 0);
         [|destruct (Z.leb_spec (fan_speed aone) 50)]|];
        repeat split; intros; try discriminate; try lia;
        repeat match goal with H : _ /\ _ |- _ => destruct H end;
        try discriminate; try lia.
  - rewrite argonone_update_view_events. cbv zeta.
    eexists. split; [reflexivity|].
    unfold icon_refreshes.
    destruct cu, (include_temperature aone), (show_label aone); reflexivity.
Qed.

(** X2. The view writes the status text at most once per call, and not at all
    when nothing is flagged and the temperature is not displayed.  The
    text goes to the label when the label is shown and to the tooltip
    otherwise, never to both; its speed part is [" -- "] for a negative
    (unknown) speed; and it carries the temperature exactly when
    [include_temperature] is set. *)
Theorem view_status_text_routing (aone : ArgonOnePlugin) (fc cu : bool)
    (tr : Trace) :
  exists evs : Trace,
    argonone_update_view aone fc cu tr = (Ret tt, tr ++ evs)
    /\ (cu || fc || include_temperature aone = false ->
        evs = [EvUpdateView fc cu])
    /\ (cu || fc || include_temperature aone = true ->
        exists s : string,
          let t := if include_temperature aone then Some (temperature aone)
                   else None in
          status_refreshes evs = [(s, t)]
          /\ (fan_speed aone < 0 -> s = " -- ")
          /\ (0 <= fan_speed aone -> s = printf_3d (fan_speed aone) +:+ "%")
          /\ label_texts evs = (if show_label aone then [(s, t)] else [])
          /\ tooltip_statuses evs
             = (if show_label aone then [] else [(s, t)])).
Proof.
  rewrite argonone_update_view_events. cbv zeta.
  eexists. split; [reflexivity|]. split.
  - intros Hquiet.
    destruct fc, cu, (include_temperature aone); try discriminate.
    reflexivity.
  - intros Hflag. eexists. split; [|split; [|split; [|split]]].
    + unfold status_refreshes.
      destruct fc, cu, (include_temperature aone), (show_label aone);
        try discriminate; reflexivity.
    + intros Hneg. by rewrite (proj2 (Z.ltb_lt _ _) Hneg).
    + intros Hpos. by rewrite (proj2 (Z.ltb_ge _ _) Hpos).
    + unfold label_texts.
      destruct fc, cu, (include_temperature aone), (show_label aone);
        try discriminate; reflexivity.
    + unfold tooltip_statuses.
      destruct fc, cu, (include_temperature aone), (show_label aone);
        try discriminate; reflexivity.
Qed.

Lemma string_length_append (a b : string) :
  String.length (a +:+ b) = (String.length a + String.length b)%nat.
Proof. induction a as [|c a IH]; [done|]. simpl. by rewrite IH. Qed.

Lemma string_length_spaces (n : nat) :
  String.length (String.concat "" (replicate n " ")) = n.
Proof.
  induction n as [|n IH]; [done|].
  destruct n as [|n]; [done|].
  change (replicate (S (S n)) " ") with (" " :: replicate (S n) " ").
  change (String.concat "" (" " :: replicate (S n) " "))
    with (" " +:+ "" +:+ String.concat "" (replicate (S n) " ")).
  rewrite !string_length_append, IH. reflexivity.
Qed.

(** [%3d] never prints fewer than 3 characters, and exactly 3 for a
    numeral of at most 3 digits. *)
Lemma printf_3d_length (i : gint32) :
  String.length (printf_3d i)
  = Nat.max 3 (String.length (NilZero.string_of_int (Z.to_int i))).
Proof.
  unfold printf_3d. rewrite string_length_append, string_length_spaces. lia.
Qed.

Lemma printf_3d_length_small (i : gint32) :
  0 <= i <= 999 -> String.length (printf_3d i) = 3%nat.
Proof.
  intros Hi.
  assert (Hall : forallb (fun n => Nat.eqb (String.length
                                              (printf_3d (Z.of_nat n))) 3)
                   (seq 0 1000) = true) by (vm_compute; reflexivity).
  rewrite forallb_forall in Hall.
  specialize (Hall (Z.to_nat i)).
  rewrite Z2Nat.id in Hall by lia.
  apply Nat.eqb_eq, Hall, in_seq. lia.
Qed.

(** X3. The speed part of every status text the view writes is at least 4
    characters long, and exactly 4 -- the width the 12-character estimate
    beside [STATUS_SIZE] counts on -- whenever the speed is at most 999,
    the negative (unknown) speeds included. *)
Theorem view_speed_text_width (aone : ArgonOnePlugin) (fc cu : bool)
    (tr : Trace) :
  exists evs : Trace,
    argonone_update_view aone fc cu tr = (Ret tt, tr ++ evs)
    /\ forall s t,
         (s, t) ∈ status_refreshes evs ->
         (4 <= String.length s)%nat
         /\ (fan_speed aone <= 999 -> String.length s = 4%nat).
Proof.
  rewrite argonone_update_view_events. cbv zeta.
  eexists. split; [reflexivity|].
  intros s t Hin.
  assert (Hs : s = if fan_speed aone <? 0 then " -- "
                   else printf_3d (fan_speed aone) +:+ "%").
  { unfold status_refreshes in Hin.
    destruct fc, cu, (include_temperature aone), (show_label aone);
      simpl in Hin;
      repeat match goal with
             | H : _ ∈ [] |- _ => by apply elem_of_nil in H
             | H : _ ∈ _ :: _ |- _ => apply elem_of_cons in H as [H|H]
             end; congruence. }
  subst s. destruct (Z.ltb_spec (fan_speed aone) 0) as [Hneg|Hpos].
  - split; [simpl; lia|done].
  - rewrite string_length_append, printf_3d_length. simpl. split; [lia|].
    intros Hsmall.
    pose proof (printf_3d_length_small (fan_speed aone) (conj Hpos Hsmall))
      as H3.
    rewrite printf_3d_length in H3. lia.
Qed.

Lemma view_speed_text_width_witness :
  exists evs : Trace,
    argonone_update_view (set_fan_speed 100 startup_model) true false []
    = (Ret tt, [] ++ evs)
    /\ (("100%", None) ∈ status_refreshes evs)
    /\ String.length "100%" = 4%nat.
Proof.
  destruct (view_speed_text_width (set_fan_speed 100 startup_model)
              true false []) as (evs & Hrun & Hwidth).
  assert (Hin : ("100%", None) ∈ status_refreshes evs).
  { pose proof Hrun as Hevs. vm_compute in Hevs. injection Hevs as <-.
    apply (bool_decide_unpack _). vm_compute. exact I. }
  exists evs. split; [exact Hrun|]. split; [exact Hin|].
  apply (proj2 (Hwidth "100%" None Hin)). vm_compute. discriminate.
Defined.

(** *** The signal handler *)

Lemma g_variant_get_sv_inv (p : GVariant) (key : string) (value : GVariant) :
  g_variant_get_sv p = Some (key, value) -> p = notify_value key value.
Proof.
  unfold g_variant_get_sv, notify_value. intros H.
  destruct p as [| | | | |items]; try discriminate.
  destruct items as [|[] [|[] [|]]]; try discriminate.
  by injection H as -> ->.
Qed.

Lemma argonone_dbus_signal_malformed (sender : string) (parameters : GVariant)
    (aone : ArgonOnePlugin) (tr : Trace) :
  g_variant_get_sv parameters = None ->
  argonone_dbus_signal (Some sender) "NotifyValue" parameters aone tr
  = (Undefined, tr).
Proof.
  intros Hsv. unfold argonone_dbus_signal.
  rewrite c_not_g_strcmp0, bool_decide_eq_true_2 by done.
  rewrite Hsv. reflexivity.
Qed.




(** X5. The refresh that ends a [NotifyValue] is made from the model the
    handler returns: the view shows the value just received, not the one
    before. *)
Theorem notify_refreshes_view_from_new_model (sender key : string)
    (value : GVariant) (aone : ArgonOnePlugin) (tr : Trace) :
  exists (aone' : ArgonOnePlugin) (fan_changed : bool) (tr' : Trace),
    argonone_dbus_signal (Some sender) "NotifyValue" (notify_value key value)
      aone tr = (Ret aone', tr')
    /\ argonone_update_view aone' fan_changed false tr = (Ret tt, tr').
Proof.
  rewrite argonone_dbus_signal_notify.
  destruct (argonone_update_view_run (after_notify key value aone).1
              (after_notify key value aone).2 false tr) as [uis Hview].
  rewrite Hview. eexists _, _, _. split; [reflexivity|exact Hview].
Qed.

Lemma set_same_field (aone : ArgonOnePlugin) :
  set_fan_speed (fan_speed aone) aone = aone
  /\ set_is_fan_control_enabled (is_fan_control_enabled aone) aone = aone
  /\ set_temperature (temperature aone) aone = aone.
Proof. by destruct aone. Qed.

(** X6. A [NotifyValue] whose value is not of the wire type of its key
    (int32 for ["fan_speed"], boolean for ["fan_control_enabled"], double
    for ["temperature"]) leaves the whole model as it was; the two fan
    keys still refresh the view as a fan change. *)
Theorem notify_value_of_wrong_type_keeps_model (sender : string)
    (value : GVariant) (aone : ArgonOnePlugin) (tr : Trace) :
  (g_variant_get_i value = None ->
   exists evs : Trace,
     argonone_dbus_signal (Some sender) "NotifyValue"
       (notify_value NOTIFY_VALUE_FAN_SPEED value) aone tr
     = (Ret aone, tr ++ evs)
     /\ view_calls evs = [(true, false)])
  /\ (g_variant_get_b value = None ->
      exists evs : Trace,
        argonone_dbus_signal (Some sender) "NotifyValue"
          (notify_value NOTIFY_VALUE_FAN_CONTROL_ENABLED value) aone tr
        = (Ret aone, tr ++ evs)
        /\ view_calls evs = [(true, false)])
  /\ (g_variant_get_d value = None ->
      exists evs : Trace,
        argonone_dbus_signal (Some sender) "NotifyValue"
          (notify_value NOTIFY_VALUE_TEMPERATURE value) aone tr
        = (Ret aone, tr ++ evs)
        /\ view_calls evs = [(false, false)]).
Proof.
  destruct (set_same_field aone) as (Hspeed & Hctl & Htemp).
  split; [|split]; intros Htype.
  - destruct (argonone_dbus_signal_notify_run sender NOTIFY_VALUE_FAN_SPEED
                value aone tr) as [uis ->].
    unfold after_notify, g_variant_get_into. simpl. rewrite Htype, Hspeed.
    eexists. split; [reflexivity|]. apply view_calls_update_view.
  - destruct (argonone_dbus_signal_notify_run sender
                NOTIFY_VALUE_FAN_CONTROL_ENABLED value aone tr) as [uis ->].
    unfold after_notify, g_variant_get_into. simpl. rewrite Htype, Hctl.
    eexists. split; [reflexivity|]. apply view_calls_update_view.
  - destruct (argonone_dbus_signal_notify_run sender
                NOTIFY_VALUE_TEMPERATURE value aone tr) as [uis ->].
    unfold after_notify, g_variant_get_into. simpl. rewrite Htype, Htemp.
    eexists. split; [reflexivity|]. apply view_calls_update_view.
Qed.

Lemma notify_value_of_wrong_type_keeps_model_witness :
  g_variant_get_i (VString "fast") = None
  /\ exists evs : Trace,
       argonone_dbus_signal (Some ":1.42") "NotifyValue"
         (notify_value NOTIFY_VALUE_FAN_SPEED (VString "fast"))
         startup_model []
       = (Ret startup_model, [] ++ evs)
       /\ view_calls evs = [(true, false)].
Proof.
  split; [reflexivity|].
  exact (proj1 (notify_value_of_wrong_type_keeps_model ":1.42"
                  (VString "fast") startup_model []) eq_refl).
Defined.

(** X7. A signal of any name other than [NotifyValue] from a non-null sender
    leaves the model as it was, whatever its parameters (they are not
    read); the view is still called once, with neither flag, and sets no
    icon. *)
Theorem other_signal_keeps_model (sender signal_name : string)
    (parameters : GVariant) (aone : ArgonOnePlugin) (tr : Trace) :
  signal_name <> "NotifyValue" ->
  exists evs : Trace,
    argonone_dbus_signal (Some sender) signal_name parameters aone tr
    = (Ret aone, tr ++ evs)
    /\ view_calls evs = [(false, false)]
    /\ icon_refreshes evs = [].
Proof.
  intros Hname. unfold argonone_dbus_signal.
  rewrite c_not_g_strcmp0, bool_decide_eq_false_2 by done.
  run_m. rewrite argonone_update_view_quiet.
  eexists. split; [reflexivity|].
  by destruct (include_temperature aone), (show_label aone).
Qed.

Lemma other_signal_keeps_model_witness :
  exists evs : Trace,
    argonone_dbus_signal (Some ":1.42") "Shutdown" (VBoolean true)
      startup_model []
    = (Ret startup_model, [] ++ evs)
    /\ view_calls evs = [(false, false)]
    /\ icon_refreshes evs = [].
Proof.
  apply (other_signal_keeps_model ":1.42" "Shutdown" (VBoolean true)
           startup_model []).
  discriminate.
Defined.

(** *** Sequences of notifications *)

Lemma after_notify_commute (k1 k2 : string) (v1 v2 : GVariant)
    (aone : ArgonOnePlugin) :
  k1 <> k2 ->
  (after_notify k2 v2 (after_notify k1 v1 aone).1).1
  = (after_notify k1 v1 (after_notify k2 v2 aone).1).1.
Proof.
  intros Hne. unfold after_notify.
  repeat case_bool_decide; subst; try congruence; reflexivity.
Qed.

(** X8. Notifications for two different keys may arrive in either order: the
    model they leave is the same. *)
Theorem notifications_of_distinct_keys_commute (s1 s2 k1 k2 : string)
    (v1 v2 : GVariant) (aone : ArgonOnePlugin) (tr : Trace) :
  k1 <> k2 ->
  exists (aone' : ArgonOnePlugin) (evs12 evs21 : Trace),
    dispatch [ (Some s1, "NotifyValue", notify_value k1 v1);
               (Some s2, "NotifyValue", notify_value k2 v2) ] aone tr
    = (Ret aone', tr ++ evs12)
    /\ dispatch [ (Some s2, "NotifyValue", notify_value k2 v2);
                  (Some s1, "NotifyValue", notify_value k1 v1) ] aone tr
       = (Ret aone', tr ++ evs21).
Proof.
  intros Hne. cbn [dispatch]. run_m.
  destruct (argonone_dbus_signal_notify_run s1 k1 v1 aone tr) as [u1 ->].
  destruct (argonone_dbus_signal_notify_run s2 k2 v2 aone tr) as [u2 ->].
  match goal with
  | |- context [argonone_dbus_signal (Some s2) _ _ ?a ?t] =>
      destruct (argonone_dbus_signal_notify_run s2 k2 v2 a t) as [u12 ->]
  end.
  match goal with
  | |- context [argonone_dbus_signal (Some s1) _ _ ?a ?t] =>
      destruct (argonone_dbus_signal_notify_run s1 k1 v1 a t) as [u21 ->]
  end.
  rewrite (after_notify_commute k1 k2 v1 v2 aone Hne).
  rewrite <- !app_assoc. eexists _, _, _. split; reflexivity.
Qed.

Lemma notifications_of_distinct_keys_commute_witness :
  exists (aone' : ArgonOnePlugin) (evs12 evs21 : Trace),
    dispatch [ (Some ":1.42", "NotifyValue",
                notify_value NOTIFY_VALUE_FAN_SPEED (VInt32 0));
               (Some ":1.42", "NotifyValue",
                notify_value NOTIFY_VALUE_FAN_CONTROL_ENABLED
                  (VBoolean false)) ] startup_model []
    = (Ret aone', [] ++ evs12)
    /\ dispatch [ (Some ":1.42", "NotifyValue",
                   notify_value NOTIFY_VALUE_FAN_CONTROL_ENABLED
                     (VBoolean false));
                  (Some ":1.42", "NotifyValue",
                   notify_value NOTIFY_VALUE_FAN_SPEED (VInt32 0)) ]
         startup_model []
       = (Ret aone', [] ++ evs21).
Proof.
  apply (notifications_of_distinct_keys_commute ":1.42" ":1.42"
           NOTIFY_VALUE_FAN_SPEED NOTIFY_VALUE_FAN_CONTROL_ENABLED
           (VInt32 0) (VBoolean false) startup_model []).
  discriminate.
Defined.

Lemma view_calls_app (tr1 tr2 : Trace) :
  view_calls (tr1 ++ tr2) = view_calls tr1 ++ view_calls tr2.
Proof. apply omap_app. Qed.

Lemma deliver_notify_again (sender key : string) (value : GVariant)
    (n : nat) (aone : ArgonOnePlugin) (tr : Trace) :
  exists evs : Trace,
    deliver n (Some sender) "NotifyValue" (notify_value key value)
      (after_notify key value aone).1 tr
    = (Ret (after_notify key value aone).1, tr ++ evs)
    /\ length (view_calls evs) = n.
Proof.
  revert tr. induction n as [|n IH]; intros tr.
  - exists []. by rewrite app_nil_r.
  - cbn [deliver]. run_m.
    destruct (argonone_dbus_signal_notify_run sender key value
                (after_notify key value aone).1 tr) as [uis ->].
    rewrite after_notify_idempotent.
    match goal with
    | |- context [deliver n _ _ _ _ ?t] => destruct (IH t) as (evs & -> & Hn)
    end.
    eexists. split; [by rewrite <- app_assoc|].
    rewrite view_calls_app, length_app, view_calls_update_view, Hn.
    reflexivity.
Qed.

(** X9. However many times in a row the same [NotifyValue] is delivered, the
    model is the one a single delivery leaves, and the view is called once
    per delivery. *)
Theorem repeated_delivery_keeps_state (n : nat) (sender key : string)
    (value : GVariant) (aone : ArgonOnePlugin) (tr : Trace) :
  exists (aone1 : ArgonOnePlugin) (evs1 evsn : Trace),
    deliver 1 (Some sender) "NotifyValue" (notify_value key value) aone tr
    = (Ret aone1, tr ++ evs1)
    /\ deliver (S n) (Some sender) "NotifyValue" (notify_value key value)
         aone tr
       = (Ret aone1, tr ++ evsn)
    /\ length (view_calls evsn) = S n.
Proof.
  cbn [deliver]. run_m.
  destruct (argonone_dbus_signal_notify_run sender key value aone tr)
    as [uis ->].
  match goal with
  | |- context [deliver n _ _ _ _ ?t] =>
      destruct (deliver_notify_again sender key value n aone t)
        as (evs & -> & Hn)
  end.
  eexists _, _, _. split; [reflexivity|].
  split; [by rewrite <- app_assoc|].
  rewrite view_calls_app, length_app, view_calls_update_view, Hn.
  reflexivity.
Qed.

(** *** Calls, queries and commands *)

(** X10. What goes out is [NULL] or a tuple: parameters that are not a tuple
    are wrapped into a 1-tuple, a tuple goes out as it is.  One call is
    made, never a second one, and the result is [NULL] exactly when that
    call failed. *)
Theorem method_call_sync_sends_one_tuple (bus : SystemBus)
    (method_name : string) (parameters : option GVariant) (tr : Trace) :
  exists (r : option GVariant) (evs : Trace) (sent : option GVariant),
    argonone_dbus_method_call_sync bus method_name parameters tr
    = (Ret r, tr ++ evs)
    /\ bus_calls evs = [(method_name, sent)]
    /\ (parameters = None -> sent = None)
    /\ (forall p, parameters = Some p -> g_variant_is_tuple p = true ->
          sent = Some p)
    /\ (forall p, parameters = Some p -> g_variant_is_tuple p = false ->
          sent = Some (VTuple [p]))
    /\ (r = None <-> failed_calls evs <> [])
    /\ (forall retval, r = Some retval <-> replies evs = [(method_name, retval)])
    /\ view_calls evs = [].
Proof.
  rewrite argonone_dbus_method_call_sync_run. cbv zeta.
  match goal with
  | |- context [call_sync ?b ?t ?m ?p] =>
      destruct (call_sync b t m p) as [retval|msg]
  end.
  - eexists _, _, _. split; [reflexivity|]. split; [reflexivity|].
    split_and!; try done.
    + by intros ->.
    + intros p -> Hp. by destruct p.
    + intros p -> Hp. by destruct p.
    + intros r. split; intros [= ->]; reflexivity.
  - eexists _, _, _. split; [reflexivity|]. split; [reflexivity|].
    split_and!; try done.
    + by intros ->.
    + intros p -> Hp. by destruct p.
    + intros p -> Hp. by destruct p.
Qed.

(** X11. A query returns [TRUE] exactly when the call got a reply.  The
    variable is overwritten only by a reply of the expected type: after a
    failed call, and also after a reply of another type (for which the
    result is still [TRUE]), it keeps its content. *)
Theorem query_sync_result (bus : SystemBus) (A : Type) (method_name : string)
    (return_format : GVariant -> option A) (value : A) (tr : Trace) :
  exists (ok : bool) (value' : A) (evs : Trace),
    argonone_dbus_query_sync bus method_name return_format value tr
    = (Ret (ok, value'), tr ++ evs)
    /\ bus_calls evs = [(method_name, None)]
    /\ (ok = false <-> failed_calls evs <> [])
    /\ (ok = false -> value' = value)
    /\ (forall retval,
          (method_name, retval) ∈ replies evs ->
          ok = true
          /\ (forall y, return_format retval = Some y -> value' = y)
          /\ (return_format retval = None -> value' = value)).
Proof.
  unfold argonone_dbus_query_sync. run_m.
  rewrite argonone_dbus_method_call_sync_run. cbv zeta.
  destruct (call_sync bus tr method_name None) as [retval|msg].
  - eexists _, _, _. split; [reflexivity|]. split; [reflexivity|].
    split_and!; try done.
    intros r Hin. unfold replies in Hin. simpl in Hin.
    apply list_elem_of_singleton in Hin as [= <-].
    unfold g_variant_get_into. split_and!; [done| |].
    + by intros y ->.
    + by intros ->.
  - eexists _, _, _. split; [reflexivity|]. split; [reflexivity|].
    split_and!; try done.
    intros r Hin. unfold replies in Hin. simpl in Hin.
    by apply elem_of_nil in Hin.
Qed.

Lemma _argonone_set_fan_no_view (bus : SystemBus) (aone : ArgonOnePlugin)
    (enabled : bool) (speed : gint32) (tr : Trace) :
  exists evs : Trace,
    _argonone_set_fan bus aone enabled speed tr = (Ret tt, tr ++ evs)
    /\ bus_calls evs
       = ("SetFanControlEnabled", Some (VTuple [VBoolean enabled]))
         :: (if bool_decide (0 <= speed)
             then [("SetFanSpeed", Some (VTuple [VInt32 speed]))]
             else [])
    /\ view_calls evs = [].
Proof.
  unfold _argonone_set_fan. run_m.
  rewrite argonone_dbus_method_call_sync_run. cbv zeta.
  unfold g_variant_new_boolean, g_variant_new_int32.
  destruct (call_sync bus tr "SetFanControlEnabled" _) as [r1|m1];
    (destruct (Z.geb_spec speed 0) as [Hge|Hlt];
     [rewrite argonone_dbus_method_call_sync_run; cbv zeta;
      match goal with
      | |- context [call_sync ?b ?t "SetFanSpeed" ?p] =>
          destruct (call_sync b t "SetFanSpeed" p) as [r2|m2]
      end;
      rewrite bool_decide_eq_true_2 by lia
     |rewrite bool_decide_eq_false_2 by lia]);
    rewrite <- ?app_assoc; eexists; (split; [reflexivity|by split]).
Qed.

(** *** Mouse and menu *)

Lemma argonone_button_press_event_left (bus : SystemBus)
    (aone : ArgonOnePlugin) (popup_menu : option GtkMenu) (tr : Trace) :
  exists evs : Trace,
    argonone_button_press_event bus aone popup_menu 1 tr
    = (Ret (popup_menu, false), tr ++ evs)
    /\ _argonone_set_fan bus aone (negb (is_fan_control_enabled aone))
         (if is_fan_control_enabled aone then 0 else -1) tr
       = (Ret tt, tr ++ evs).
Proof.
  unfold argonone_button_press_event. cbn [Z.eqb Pos.eqb]. run_m.
  destruct (is_fan_control_enabled aone); cbn [negb].
  - destruct (_argonone_set_fan_run bus aone false 0 tr) as (evs & -> & _).
    by exists evs.
  - destruct (_argonone_set_fan_run bus aone true (-1) tr) as (evs & -> & _).
    by exists evs.
Qed.

(** X12. A left click sends the command opposite to the model's
    [is_fan_control_enabled]: hold stopped (control off, then speed 0) when
    it is on, resume (control on, no speed) when it is off.  It returns
    [FALSE], leaves the popup menu alone and does not refresh the view:
    the display changes only when the daemon's notification arrives. *)
Theorem left_click_toggles_fan_control (bus : SystemBus)
    (aone : ArgonOnePlugin) (popup_menu : option GtkMenu) (tr : Trace) :
  exists evs : Trace,
    argonone_button_press_event bus aone popup_menu 1 tr
    = (Ret (popup_menu, false), tr ++ evs)
    /\ bus_calls evs
       = (if is_fan_control_enabled aone then
            [("SetFanControlEnabled", Some (VTuple [VBoolean false]));
             ("SetFanSpeed", Some (VTuple [VInt32 0]))]
          else [("SetFanControlEnabled", Some (VTuple [VBoolean true]))])
    /\ view_calls evs = [].
Proof.
  destruct (argonone_button_press_event_left bus aone popup_menu tr)
    as (evs & Hclick & Hset).
  destruct (_argonone_set_fan_no_view bus aone
              (negb (is_fan_control_enabled aone))
              (if is_fan_control_enabled aone then 0 else -1) tr)
    as (evs' & Hset' & Hcalls & Hview).
  rewrite Hset in Hset'. injection Hset' as Heq.
  apply app_inv_head in Heq as <-.
  exists evs. split; [exact Hclick|].
  split; [|exact Hview].
  rewrite Hcalls. by destruct (is_fan_control_enabled aone).
Qed.

(** X13. A right click sends nothing over the bus and returns [TRUE].  It
    builds the menu -- Resume, Hold stopped, Hold maximum, Hold current,
    in that order -- only when there is none yet, and otherwise shows the
    one built before.  Any other button but the left one does nothing and
    returns [FALSE]. *)
Theorem right_click_shows_menu_built_once (bus : SystemBus)
    (aone : ArgonOnePlugin) (tr : Trace) :
  (exists menu : GtkMenu,
     argonone_button_press_event bus aone None 3 tr
     = (Ret (Some menu, true), tr)
     /\ menu.*1 = ["Resume"; "Hold stopped"; "Hold maximum"; "Hold current"])
  /\ (forall menu : GtkMenu,
        argonone_button_press_event bus aone (Some menu) 3 tr
        = (Ret (Some menu, true), tr))
  /\ (forall (popup_menu : option GtkMenu) (button : Z),
        button <> 1 -> button <> 3 ->
        argonone_button_press_event bus aone popup_menu button tr
        = (Ret (popup_menu, false), tr)).
Proof.
  split_and!.
  - eexists. split; reflexivity.
  - reflexivity.
  - intros popup_menu button H1 H3. unfold argonone_button_press_event.
    destruct (Z.eqb_spec button 1); [done|].
    destruct (Z.eqb_spec button 3); [done|]. reflexivity.
Qed.

(** X14. Each item of the popup menu sends its preset: Resume turns fan control
    on and sends no speed; Hold stopped and Hold maximum turn it off and
    then send speed 0 and speed 100; Hold current turns it off and sends
    no speed. *)
Theorem popup_menu_items_send_presets (bus : SystemBus)
    (aone : ArgonOnePlugin) (tr : Trace) :
  exists resume hold_stopped hold_maximum hold_current,
    argonone_build_popup_menu bus
    = [ ("Resume", resume); ("Hold stopped", hold_stopped);
        ("Hold maximum", hold_maximum); ("Hold current", hold_current) ]
    /\ (exists evs, resume aone tr = (Ret tt, tr ++ evs)
          /\ bus_calls evs
             = [("SetFanControlEnabled", Some (VTuple [VBoolean true]))])
    /\ (exists evs, hold_stopped aone tr = (Ret tt, tr ++ evs)
          /\ bus_calls evs
             = [("SetFanControlEnabled", Some (VTuple [VBoolean false]));
                ("SetFanSpeed", Some (VTuple [VInt32 0]))])
    /\ (exists evs, hold_maximum aone tr = (Ret tt, tr ++ evs)
          /\ bus_calls evs
             = [("SetFanControlEnabled", Some (VTuple [VBoolean false]));
                ("SetFanSpeed", Some (VTuple [VInt32 100]))])
    /\ (exists evs, hold_current aone tr = (Ret tt, tr ++ evs)
          /\ bus_calls evs
             = [("SetFanControlEnabled", Some (VTuple [VBoolean false]))]).
Proof.
  eexists _, _, _, _. split; [reflexivity|].
  split_and!.
  - apply (_argonone_set_fan_run bus aone true (-1) tr).
  - apply (_argonone_set_fan_run bus aone false 0 tr).
  - apply (_argonone_set_fan_run bus aone false 100 tr).
  - apply (_argonone_set_fan_run bus aone false (-1) tr).
Qed.

(** X15. What a left click sends is decided by the flag last notified, not by
    the command last sent: after a ["fan_control_enabled"] notification
    carrying [b], a click sends hold stopped when [b] is true and resume
    when it is false; and two clicks with no notification in between send
    the same commands twice. *)
Theorem click_follows_notified_flag (bus : SystemBus) (sender : string)
    (b : bool) (aone : ArgonOnePlugin) (popup_menu : option GtkMenu)
    (tr : Trace) :
  (exists (aone' : ArgonOnePlugin) (evs1 evs2 : Trace),
     argonone_dbus_signal (Some sender) "NotifyValue"
       (notify_value NOTIFY_VALUE_FAN_CONTROL_ENABLED (VBoolean b)) aone tr
     = (Ret aone', tr ++ evs1)
     /\ argonone_button_press_event bus aone' popup_menu 1 (tr ++ evs1)
        = (Ret (popup_menu, false), (tr ++ evs1) ++ evs2)
     /\ bus_calls evs2
        = (if b then
             [("SetFanControlEnabled", Some (VTuple [VBoolean false]));
              ("SetFanSpeed", Some (VTuple [VInt32 0]))]
           else [("SetFanControlEnabled", Some (VTuple [VBoolean true]))]))
  /\ (exists evs1 evs2 : Trace,
        argonone_button_press_event bus aone popup_menu 1 tr
        = (Ret (popup_menu, false), tr ++ evs1)
        /\ argonone_button_press_event bus aone popup_menu 1 (tr ++ evs1)
           = (Ret (popup_menu, false), (tr ++ evs1) ++ evs2)
        /\ bus_calls evs2 = bus_calls evs1).
Proof.
  split.
  - destruct (argonone_dbus_signal_notify_run sender
                NOTIFY_VALUE_FAN_CONTROL_ENABLED (VBoolean b) aone tr)
      as [uis ->].
    change (after_notify NOTIFY_VALUE_FAN_CONTROL_ENABLED (VBoolean b) aone)
      with (set_is_fan_control_enabled b aone, true).
    cbn [fst snd].
    match goal with
    | |- context [(Ret ?a, tr ++ ?e)] =>
        destruct (argonone_button_press_event_left bus a popup_menu (tr ++ e))
          as (evs2 & Hclick & Hset);
        destruct (_argonone_set_fan_run bus a
                    (negb (is_fan_control_enabled a))
                    (if is_fan_control_enabled a then 0 else -1) (tr ++ e))
          as (evs2' & Hset' & Hcalls)
    end.
    rewrite Hset in Hset'. injection Hset' as Heq.
    apply app_inv_head in Heq as <-.
    eexists _, _, evs2. split; [reflexivity|]. split; [exact Hclick|].
    rewrite Hcalls. cbn [is_fan_control_enabled set_is_fan_control_enabled].
    by destruct b.
  - destruct (argonone_button_press_event_left bus aone popup_menu tr)
      as (evs1 & H1 & Hs1).
    destruct (argonone_button_press_event_left bus aone popup_menu
                (tr ++ evs1)) as (evs2 & H2 & Hs2).
    exists evs1, evs2. split; [exact H1|]. split; [exact H2|].
    destruct (_argonone_set_fan_run bus aone
                (negb (is_fan_control_enabled aone))
                (if is_fan_control_enabled aone then 0 else -1) tr)
      as (e1 & He1 & Hc1).
    destruct (_argonone_set_fan_run bus aone
                (negb (is_fan_control_enabled aone))
                (if is_fan_control_enabled aone then 0 else -1) (tr ++ evs1))
      as (e2 & He2 & Hc2).
    rewrite Hs1 in He1. injection He1 as Heq1.
    apply app_inv_head in Heq1 as <-.
    rewrite Hs2 in He2. injection He2 as Heq2.
    apply app_inv_head in Heq2 as <-.
    by rewrite Hc1, Hc2.
Qed.

(** *** Startup *)

(** The constructor with the proxy created, in full: what it asks, what
    it keeps of each reply, and the one refresh that ends it. *)
Lemma argonone_constructor_startup (bus : SystemBus)
    (settings : gmap string Z) (tr : Trace) :
  proxy_new_error bus = None ->
  exists (aone : ArgonOnePlugin) (pre : Trace) (uis : list UiAction),
    argonone_constructor bus settings tr
    = (Ret aone, tr ++ pre ++ EvUpdateView true true :: (EvUi <$> uis))
    /\ argonone_update_view aone true true (tr ++ pre)
       = (Ret tt, tr ++ pre ++ EvUpdateView true true :: (EvUi <$> uis))
    /\ bus_calls pre
       = [("GetFanSpeed", None); ("GetFanControlEnabled", None);
          ("GetTemperature", None)]
    /\ view_calls pre = []
    /\ label_visibilities pre = []
    /\ show_label aone
       = show_label (argonone_update_from_settings settings startup_model)
    /\ include_temperature aone
       = include_temperature
           (argonone_update_from_settings settings startup_model)
    /\ (forall r, ("GetFanSpeed", r) ∈ replies pre ->
          fan_speed aone
          = g_variant_get_into (g_variant_get_tuple1 g_variant_get_i) r (-1))
    /\ (forall r, ("GetFanControlEnabled", r) ∈ replies pre ->
          is_fan_control_enabled aone
          = g_variant_get_into (g_variant_get_tuple1 g_variant_get_b) r true)
    /\ (forall r, ("GetTemperature", r) ∈ replies pre ->
          temperature aone
          = g_variant_get_into (g_variant_get_tuple1 g_variant_get_d) r 0).
Proof.
  intros Hproxy.
  unfold argonone_constructor, argonone_dbus_query_sync. run_m.
  rewrite Hproxy.
  change (set_fan_speed (-1)
            (set_is_fan_control_enabled true
               (set_include_temperature false
                  (set_show_label true g_new0_ArgonOnePlugin))))
    with startup_model.
  destruct (argonone_update_from_settings_model settings startup_model)
    as (Hspeed & Hctl & Htemp).
  set (aone0 := argonone_update_from_settings settings startup_model) in *.
  rewrite argonone_dbus_method_call_sync_run.
  destruct (call_sync bus _ "GetFanSpeed" None) as [r1|m1];
    rewrite argonone_dbus_method_call_sync_run;
    destruct (call_sync bus _ "GetFanControlEnabled" None) as [r2|m2];
    rewrite argonone_dbus_method_call_sync_run;
    destruct (call_sync bus _ "GetTemperature" None) as [r3|m3].
  all: rewrite <- ?app_assoc; cbn [app].
  all: match goal with
       | |- context [argonone_update_view ?a true true (?t ++ ?pre)] =>
           destruct (argonone_update_view_run a true true (t ++ pre))
             as [uis Hview];
           rewrite Hview; rewrite <- app_assoc in Hview;
           exists a, pre, uis
       end.
  all: rewrite <- app_assoc; split; [reflexivity|]; split; [exact Hview|].
  all: unfold bus_calls, view_calls, replies, label_visibilities;
    cbn [omap list_omap bus_call view_call reply label_visibility show_label include_temperature fan_speed
         is_fan_control_enabled temperature set_fan_speed set_temperature
         set_is_fan_control_enabled].
  all: rewrite ?Hspeed, ?Hctl, ?Htemp.
  all: split_and!; try reflexivity.
  all: intros r Hin;
    repeat match goal with
           | H : _ ∈ [] |- _ => by apply elem_of_nil in H
           | H : _ ∈ _ :: _ |- _ =>
               apply elem_of_cons in H as [H|H]; [try discriminate H|]
           end;
    by injection Hin as <-.
Qed.

Lemma omap_view_tail {A : Type} (f : Event -> option A) (pre : Trace)
    (fc cu : bool) (uis : list UiAction) :
  f (EvUpdateView fc cu) = None -> (forall a, f (EvUi a) = None) ->
  omap f (pre ++ EvUpdateView fc cu :: (EvUi <$> uis)) = omap f pre.
Proof.
  intros Hmark Hui. rewrite omap_app. simpl.
  by rewrite Hmark, omap_ui, app_nil_r.
Qed.

(** X16. After startup each field of the model holds what its query was
    answered: the value of a reply of the expected type ([(i)], [(b)],
    [(d)]), and the value from before the queries -- [-1], true, zero --
    when the reply has another type. *)
Theorem startup_model_from_replies (bus : SystemBus)
    (settings : gmap string Z) (tr : Trace) :
  proxy_new_error bus = None ->
  exists (aone : ArgonOnePlugin) (evs : Trace),
    argonone_constructor bus settings tr = (Ret aone, tr ++ evs)
    /\ (forall s, ("GetFanSpeed", VTuple [VInt32 s]) ∈ replies evs ->
          fan_speed aone = s)
    /\ (forall b, ("GetFanControlEnabled", VTuple [VBoolean b]) ∈ replies evs ->
          is_fan_control_enabled aone = b)
    /\ (forall d, ("GetTemperature", VTuple [VDouble d]) ∈ replies evs ->
          temperature aone = d)
    /\ (forall r, ("GetFanSpeed", r) ∈ replies evs ->
          g_variant_get_tuple1 g_variant_get_i r = None ->
          fan_speed aone = -1)
    /\ (forall r, ("GetFanControlEnabled", r) ∈ replies evs ->
          g_variant_get_tuple1 g_variant_get_b r = None ->
          is_fan_control_enabled aone = true)
    /\ (forall r, ("GetTemperature", r) ∈ replies evs ->
          g_variant_get_tuple1 g_variant_get_d r = None ->
          temperature aone = 0).
Proof.
  intros Hproxy.
  destruct (argonone_constructor_startup bus settings tr Hproxy)
    as (aone & pre & uis & Hrun & _ & _ & _ & _ & _ & _
        & Hspeed & Hctl & Htemp).
  exists aone, (pre ++ EvUpdateView true true :: (EvUi <$> uis)).
  split; [exact Hrun|].
  unfold replies in *. rewrite omap_view_tail by done.
  split_and!.
  - intros s Hin. by rewrite (Hspeed _ Hin).
  - intros b Hin. by rewrite (Hctl _ Hin).
  - intros d Hin. by rewrite (Htemp _ Hin).
  - intros r Hin Htype. rewrite (Hspeed _ Hin).
    unfold g_variant_get_into. by rewrite Htype.
  - intros r Hin Htype. rewrite (Hctl _ Hin).
    unfold g_variant_get_into. by rewrite Htype.
  - intros r Hin Htype. rewrite (Htemp _ Hin).
    unfold g_variant_get_into. by rewrite Htype.
Qed.

Lemma startup_model_from_replies_witness :
  proxy_new_error (daemon_bus [] 42 false 77) = None
  /\ exists (aone : ArgonOnePlugin) (evs : Trace),
       argonone_constructor (daemon_bus [] 42 false 77) ∅ []
       = (Ret aone, [] ++ evs)
       /\ (("GetFanSpeed", VTuple [VInt32 42]) ∈ replies evs)
       /\ fan_speed aone = 42.
Proof.
  split; [reflexivity|].
  destruct (startup_model_from_replies (daemon_bus [] 42 false 77) ∅ []
              eq_refl) as (aone & evs & Hrun & Hspeed & _).
  assert (Hin : ("GetFanSpeed", VTuple [VInt32 42]) ∈ replies evs).
  { pose proof Hrun as Hevs. vm_compute in Hevs. injection Hevs as _ <-.
    unfold replies. simpl. left. }
  exists aone, evs. split; [exact Hrun|]. split; [exact Hin|].
  exact (Hspeed 42 Hin).
Defined.

(** X17. The constructor asks [GetFanSpeed], [GetFanControlEnabled] and
    [GetTemperature], in that order and without parameters, before it
    touches the view; it then refreshes the view exactly once, with both
    flags set, from the model it returns. *)
Theorem startup_queries_then_one_refresh (bus : SystemBus)
    (settings : gmap string Z) (tr : Trace) :
  proxy_new_error bus = None ->
  exists (aone : ArgonOnePlugin) (pre post : Trace),
    argonone_constructor bus settings tr = (Ret aone, tr ++ pre ++ post)
    /\ bus_calls pre
       = [("GetFanSpeed", None); ("GetFanControlEnabled", None);
          ("GetTemperature", None)]
    /\ view_calls pre = []
    /\ bus_calls post = []
    /\ view_calls post = [(true, true)]
    /\ argonone_update_view aone true true (tr ++ pre)
       = (Ret tt, tr ++ pre ++ post).
Proof.
  intros Hproxy.
  destruct (argonone_constructor_startup bus settings tr Hproxy)
    as (aone & pre & uis & Hrun & Hview & Hcalls & Hnoview & _).
  exists aone, pre, (EvUpdateView true true :: (EvUi <$> uis)).
  split_and!; try done.
  - unfold bus_calls. simpl. by rewrite omap_ui.
  - apply view_calls_update_view.
Qed.

Lemma startup_queries_then_one_refresh_witness :
  exists (aone : ArgonOnePlugin) (pre post : Trace),
    argonone_constructor (daemon_bus ["GetTemperature"] 0 true 0) ∅ []
    = (Ret aone, [] ++ pre ++ post)
    /\ bus_calls pre
       = [("GetFanSpeed", None); ("GetFanControlEnabled", None);
          ("GetTemperature", None)]
    /\ view_calls post = [(true, true)].
Proof.
  destruct (startup_queries_then_one_refresh
              (daemon_bus ["GetTemperature"] 0 true 0) ∅ [] eq_refl)
    as (aone & pre & post & Hrun & Hcalls & _ & _ & Hview & _).
  by exists aone, pre, post.
Defined.

(** *** Configuration *)

(** A preference is read from its int setting: on exactly when the value
    is 1, and left as it is when the setting is missing. *)
Lemma argonone_update_from_settings_preferences (settings : gmap string Z)
    (aone : ArgonOnePlugin) :
  show_label (argonone_update_from_settings settings aone)
  = match settings !! "ShowLabel" with
    | Some v => bool_decide (v = 1)
    | None => show_label aone
    end
  /\ include_temperature (argonone_update_from_settings settings aone)
     = match settings !! "IncludeTemperature" with
       | Some v => bool_decide (v = 1)
       | None => include_temperature aone
       end.
Proof.
  unfold argonone_update_from_settings.
  destruct (settings !! "ShowLabel") as [v1|],
    (settings !! "IncludeTemperature") as [v2|]; simpl; split;
    try reflexivity.
  all: match goal with
       | |- (?v =? 1) = _ => destruct (Z.eqb_spec v 1)
       end;
    case_bool_decide; congruence.
Qed.

(** X18. The constructor takes the two display preferences from the settings:
    a preference is on exactly when its setting is 1 -- any other value
    turns it off -- and a missing setting leaves the default, label shown
    and temperature not included.  The label is made visible or hidden
    accordingly, once. *)
Theorem startup_preferences_from_settings (bus : SystemBus)
    (settings : gmap string Z) (tr : Trace) :
  proxy_new_error bus = None ->
  exists (aone : ArgonOnePlugin) (evs : Trace),
    argonone_constructor bus settings tr = (Ret aone, tr ++ evs)
    /\ (settings !! "ShowLabel" = None -> show_label aone = true)
    /\ (forall v, settings !! "ShowLabel" = Some v ->
          (show_label aone = true <-> v = 1))
    /\ (settings !! "IncludeTemperature" = None ->
        include_temperature aone = false)
    /\ (forall v, settings !! "IncludeTemperature" = Some v ->
          (include_temperature aone = true <-> v = 1))
    /\ label_visibilities evs = [show_label aone].
Proof.
  intros Hproxy.
  destruct (argonone_constructor_startup bus settings tr Hproxy)
    as (aone & pre & uis & Hrun & Hview & _ & _ & Hvis & Hlabel & Htemp & _).
  destruct (argonone_update_from_settings_preferences settings startup_model)
    as [Hl Ht].
  rewrite Hl in Hlabel. rewrite Ht in Htemp.
  exists aone, (pre ++ EvUpdateView true true :: (EvUi <$> uis)).
  split; [exact Hrun|]. split_and!.
  - intros Hnone. by rewrite Hlabel, Hnone.
  - intros v Hsome. rewrite Hlabel, Hsome. by rewrite bool_decide_eq_true.
  - intros Hnone. by rewrite Htemp, Hnone.
  - intros v Hsome. rewrite Htemp, Hsome. by rewrite bool_decide_eq_true.
  - rewrite argonone_update_view_events in Hview. cbv zeta in Hview.
    injection Hview as Hview. rewrite !app_assoc in Hview.
    apply app_inv_head in Hview. injection Hview as <-.
    unfold label_visibilities in *. rewrite omap_app, Hvis. simpl.
    by destruct (show_label aone).
Qed.

Lemma startup_preferences_from_settings_witness :
  proxy_new_error (daemon_bus [] 42 false 77) = None
  /\ exists (aone : ArgonOnePlugin) (evs : Trace),
       argonone_constructor (daemon_bus [] 42 false 77)
         {[ "ShowLabel" := 2 ]} []
       = (Ret aone, [] ++ evs)
       /\ show_label aone = false
       /\ include_temperature aone = false.
Proof.
  split; [reflexivity|].
  destruct (startup_preferences_from_settings (daemon_bus [] 42 false 77)
              {[ "ShowLabel" := 2 ]} [] eq_refl)
    as (aone & evs & Hrun & _ & Hlabel & Htemp & _).
  exists aone, evs. split; [exact Hrun|]. split.
  - destruct (show_label aone) eqn:Hshow; [|reflexivity].
    assert (H21 : (2 : Z) = 1) by (by apply (Hlabel 2)).
    discriminate H21.
  - by apply Htemp.
Defined.

Lemma Z_b2z_is_1 (b : bool) : bool_decide (Z.b2z b = 1) = b.
Proof. by destruct b. Qed.

(** X19. Saving and restoring the preferences is a round trip.
    [argonone_apply_configuration] returns [TRUE], writes the two
    preferences as int settings and leaves every other setting alone;
    read back from those settings -- by [argonone_update_from_settings]
    into any model, or by the constructor at the next start -- the
    preferences are the ones that were saved. *)
Theorem saved_preferences_are_restored (settings : gmap string Z)
    (aone : ArgonOnePlugin) (tr : Trace) :
  exists (settings' : gmap string Z) (evs : Trace),
    argonone_apply_configuration settings aone tr
    = (Ret (settings', true), tr ++ evs)
    /\ view_calls evs = [(false, true)]
    /\ (forall name, name <> "ShowLabel" -> name <> "IncludeTemperature" ->
          settings' !! name = settings !! name)
    /\ (forall other : ArgonOnePlugin,
          show_label (argonone_update_from_settings settings' other)
          = show_label aone
          /\ include_temperature
               (argonone_update_from_settings settings' other)
             = include_temperature aone)
    /\ (forall (bus : SystemBus) (tr2 : Trace),
          proxy_new_error bus = None ->
          exists (aone2 : ArgonOnePlugin) (evs2 : Trace),
            argonone_constructor bus settings' tr2 = (Ret aone2, tr2 ++ evs2)
            /\ show_label aone2 = show_label aone
            /\ include_temperature aone2 = include_temperature aone).
Proof.
  unfold argonone_apply_configuration, config_group_set_int. run_m.
  destruct (argonone_update_view_run aone false true tr) as [uis ->].
  set (settings' := <["IncludeTemperature" := Z.b2z (include_temperature aone)]>
                      (<["ShowLabel" := Z.b2z (show_label aone)]> settings)).
  assert (Hread : forall other : ArgonOnePlugin,
             show_label (argonone_update_from_settings settings' other)
             = show_label aone
             /\ include_temperature
                  (argonone_update_from_settings settings' other)
                = include_temperature aone).
  { intros other.
    destruct (argonone_update_from_settings_preferences settings' other)
      as [-> ->].
    unfold settings'.
    rewrite lookup_insert_ne by done.
    rewrite !lookup_insert_eq. by rewrite !Z_b2z_is_1. }
  exists settings', (EvUpdateView false true :: (EvUi <$> uis)).
  split_and!.
  - reflexivity.
  - apply view_calls_update_view.
  - intros name Hl Ht. unfold settings'.
    by rewrite !lookup_insert_ne.
  - exact Hread.
  - intros bus tr2 Hproxy.
    destruct (argonone_constructor_startup bus settings' tr2 Hproxy)
      as (aone2 & pre & uis2 & Hrun & _ & _ & _ & _ & Hlabel & Htemp & _).
    destruct (Hread startup_model) as [Hl Ht].
    exists aone2, (pre ++ EvUpdateView true true :: (EvUi <$> uis2)).
    split; [exact Hrun|]. split; congruence.
Qed.

Lemma saved_preferences_are_restored_witness :
  exists (settings' : gmap string Z) (aone2 : ArgonOnePlugin)
         (evs evs2 : Trace),
    argonone_apply_configuration {[ "ShowLabel" := 1 ]}
      (set_include_temperature true (set_show_label false startup_model)) []
    = (Ret (settings', true), [] ++ evs)
    /\ argonone_constructor (daemon_bus [] 42 false 77) settings' []
       = (Ret aone2, [] ++ evs2)
    /\ show_label aone2 = false
    /\ include_temperature aone2 = true.
Proof.
  destruct (saved_preferences_are_restored {[ "ShowLabel" := 1 ]}
              (set_include_temperature true
                 (set_show_label false startup_model)) [])
    as (settings' & evs & Hrun & _ & _ & _ & Hstart).
  destruct (Hstart (daemon_bus [] 42 false 77) [] eq_refl)
    as (aone2 & evs2 & Hrun2 & Hlabel & Htemp).
  by exists settings', aone2, evs, evs2.
Defined.

